(** * Zurich Open Data access layer: a shallow embedding of [api_client.py]

    The module [zurich_opendata_mcp/api_client.py] holds the adapters
    ([ckan_request], [wfs_get_features]), the XML helpers
    ([paris_extract_text], [paris_get_num_hits]), the dataset formatter
    ([format_dataset_summary]) and the error classifier
    ([handle_api_error]).  Each of them is embedded below as a Rocq
    function over the values the Python code manipulates: Unicode strings,
    decoded JSON values, XML elements, exceptions and HTTP responses. *)

From Stdlib Require Import List ZArith NArith Bool Lia String Ascii.
From Stdlib Require Import DecimalPos DecimalN.
Import ListNotations.

Local Open Scope Z_scope.

(** ** Python strings

    A Python [str] is a sequence of Unicode code points; slicing, [strip]
    and [len] all count code points, so the model is a list of code
    points and not a list of bytes. *)

Definition pystr : Type := list N.

(** Literals of the source are written as they stand in the (UTF-8
    encoded) Python file and decoded to code points by [lit]. *)

Fixpoint utf8_decode (l : list N) : pystr :=
  match l with
  | [] => []
  | b :: t =>
    if (b <? 128)%N then b :: utf8_decode t
    else match t with
      | [] => []
      | b1 :: t1 =>
        if (b <? 224)%N then ((b - 192) * 64 + (b1 - 128))%N :: utf8_decode t1
        else match t1 with
          | [] => []
          | b2 :: t2 =>
            if (b <? 240)%N
            then (((b - 224) * 64 + (b1 - 128)) * 64 + (b2 - 128))%N
                   :: utf8_decode t2
            else match t2 with
              | [] => []
              | b3 :: t3 =>
                ((((b - 240) * 64 + (b1 - 128)) * 64 + (b2 - 128)) * 64
                 + (b3 - 128))%N :: utf8_decode t3
              end
          end
      end
  end.

Definition lit (s : string) : pystr :=
  utf8_decode (map N_of_ascii (list_ascii_of_string s)).

Fixpoint str_eqb (a b : pystr) : bool :=
  match a, b with
  | [], [] => true
  | x :: a', y :: b' => (x =? y)%N && str_eqb a' b'
  | _, _ => false
  end.

(** [sep.join(parts)] *)
Fixpoint join (sep : pystr) (parts : list pystr) : pystr :=
  match parts with
  | [] => []
  | [p] => p
  | p :: rest => p ++ sep ++ join sep rest
  end.

(** [s.startswith(p)] and [sub in s] *)
Fixpoint startswith (s p : pystr) : bool :=
  match p, s with
  | [], _ => true
  | x :: p', y :: s' => (x =? y)%N && startswith s' p'
  | _ :: _, [] => false
  end.

Fixpoint contains (s sub : pystr) : bool :=
  startswith s sub
  || match s with
     | [] => false
     | _ :: t => contains t sub
     end.

(** [str.isspace] for one code point: the white space table of CPython
    ([_PyUnicode_IsWhitespace]). *)
Definition isspace (c : N) : bool :=
  ((9 <=? c) && (c <=? 13) || (28 <=? c) && (c <=? 32)
   || (c =? 133) || (c =? 160) || (c =? 5760)
   || (8192 <=? c) && (c <=? 8202)
   || (c =? 8232) || (c =? 8233) || (c =? 8239) || (c =? 8287)
   || (c =? 12288))%N.

Fixpoint lstrip (s : pystr) : pystr :=
  match s with
  | c :: t => if isspace c then lstrip t else s
  | [] => []
  end.

(** [s.strip()]: white space removed at both ends. *)
Definition strip (s : pystr) : pystr := rev (lstrip (rev (lstrip s))).

(** *** Decimal rendering and parsing of integers *)

Fixpoint uint_codes (d : Decimal.uint) : pystr :=
  match d with
  | Decimal.Nil => []
  | Decimal.D0 r => 48%N :: uint_codes r
  | Decimal.D1 r => 49%N :: uint_codes r
  | Decimal.D2 r => 50%N :: uint_codes r
  | Decimal.D3 r => 51%N :: uint_codes r
  | Decimal.D4 r => 52%N :: uint_codes r
  | Decimal.D5 r => 53%N :: uint_codes r
  | Decimal.D6 r => 54%N :: uint_codes r
  | Decimal.D7 r => 55%N :: uint_codes r
  | Decimal.D8 r => 56%N :: uint_codes r
  | Decimal.D9 r => 57%N :: uint_codes r
  end.

(** [str(z)] for an [int]. *)
Definition str_int (z : Z) : pystr :=
  (if z <? 0 then [45%N] else []) ++ uint_codes (N.to_uint (Z.abs_N z)).

(** The number a decimal numeral denotes, after the digits already read
    have given [acc]. *)
Fixpoint dec_value (d : Decimal.uint) (acc : Z) : Z :=
  match d with
  | Decimal.Nil => acc
  | Decimal.D0 r => dec_value r (10 * acc + 0)
  | Decimal.D1 r => dec_value r (10 * acc + 1)
  | Decimal.D2 r => dec_value r (10 * acc + 2)
  | Decimal.D3 r => dec_value r (10 * acc + 3)
  | Decimal.D4 r => dec_value r (10 * acc + 4)
  | Decimal.D5 r => dec_value r (10 * acc + 5)
  | Decimal.D6 r => dec_value r (10 * acc + 6)
  | Decimal.D7 r => dec_value r (10 * acc + 7)
  | Decimal.D8 r => dec_value r (10 * acc + 8)
  | Decimal.D9 r => dec_value r (10 * acc + 9)
  end.

(** First code point of every block of ten Unicode decimal digits
    (category Nd); [int] accepts all of them. *)
Definition decimal_zeros : list N :=
  [48; 1632; 1776; 1984; 2406; 2534; 2662; 2790; 2918; 3046; 3174; 3302;
   3430; 3558; 3664; 3792; 3872; 4160; 4240; 6112; 6160; 6470; 6608; 6784;
   6800; 6992; 7088; 7232; 7248; 42528; 43216; 43264; 43472; 43504; 43600;
   44016; 65296; 66720; 68912; 69734; 69872; 69942; 70096; 70384; 70736;
   70864; 71248; 71360; 71472; 71904; 72016; 72784; 73040; 73120; 92768;
   92864; 93008; 120782; 120792; 120802; 120812; 120822; 123200; 123632;
   125264; 130032]%N.

Fixpoint decimal_in (zeros : list N) (c : N) : option N :=
  match zeros with
  | [] => None
  | z :: rest =>
    if ((z <=? c) && (c <? z + 10))%N then Some (c - z)%N
    else decimal_in rest c
  end.

Definition decimal_value (c : N) : option N := decimal_in decimal_zeros c.

(** What [int] does to its argument before parsing: ASCII is kept, other
    white space becomes a blank, other decimal digits their ASCII digit,
    anything else a question mark. *)
Definition to_ascii_decimal (c : N) : N :=
  if (c <? 128)%N then c
  else if isspace c then 32%N
  else match decimal_value c with
       | Some d => (48 + d)%N
       | None => 63%N
       end.

Definition ascii_space (c : N) : bool :=
  ((9 <=? c) && (c <=? 13) || (c =? 32))%N.

Definition ascii_digit (c : N) : bool := ((48 <=? c) && (c <=? 57))%N.

Fixpoint skip_spaces (s : pystr) : pystr :=
  match s with
  | c :: t => if ascii_space c then skip_spaces t else s
  | [] => []
  end.

(** The digits of a literal: digits with single underscores between
    them.  [prev] tells whether the previous character was a digit; the
    result is the value, the number of digits read and what follows. *)
Fixpoint scan_digits (s : pystr) (prev : bool) (acc : Z) (n : N)
  : option (Z * N * pystr) :=
  match s with
  | c :: t =>
    if ascii_digit c
    then scan_digits t true (10 * acc + Z.of_N (c - 48)) (n + 1)%N
    else if (c =? 95)%N
    then (if prev
          then match t with
               | d :: _ => if ascii_digit d then scan_digits t false acc n
                           else None
               | [] => None
               end
          else None)
    else if prev then Some (acc, n, s) else None
  | [] => if prev then Some (acc, n, []) else None
  end.

(** The interpreter's limit on the number of digits of a decimal
    literal ([sys.int_info.default_max_str_digits]). *)
Definition int_max_str_digits : N := 4300.

(** [int(s)] for a [str]; [None] stands for [ValueError]. *)
Definition py_int (s : pystr) : option Z :=
  let a := skip_spaces (map to_ascii_decimal s) in
  let '(neg, body) :=
    match a with
    | c :: t =>
      if (c =? 45)%N then (true, t)
      else if (c =? 43)%N then (false, t)
      else (false, a)
    | [] => (false, a)
    end in
  match scan_digits body false 0 0%N with
  | Some (v, n, rest) =>
    match skip_spaces rest with
    | [] => if (int_max_str_digits <? n)%N then None
            else Some (if neg then - v else v)
    | _ :: _ => None
    end
  | None => None
  end.

(** ** Decoded JSON values

    What [response.json()] returns: [None], [bool], [int], [float],
    [str], [list] and [dict].  A [float] is represented by its [repr],
    which determines it.  A [dict] is the list of its entries in insertion
    order, keys of a Python dict being distinct; [dict_get] reads the
    first entry of a key. *)

#[warnings="-register-all"]
Inductive json : Type :=
| JNull
| JBool (b : bool)
| JInt (z : Z)
| JFloat (repr : pystr)
| JStr (s : pystr)
| JList (items : list json)
| JDict (entries : list (pystr * json)).

Definition dict : Type := list (pystr * json).

Fixpoint dict_get (d : dict) (k : pystr) : option json :=
  match d with
  | [] => None
  | (k', v) :: rest => if str_eqb k' k then Some v else dict_get rest k
  end.

(** [d.get(k, default)] *)
Definition dict_get_or (d : dict) (k : pystr) (default : json) : json :=
  match dict_get d k with
  | Some x => x
  | None => default
  end.

(** [d[k] = v]: the entry of an existing key is replaced where it
    stands, a new key is added at the end. *)
Fixpoint dict_set (d : dict) (k : pystr) (v : json) : dict :=
  match d with
  | [] => [(k, v)]
  | (k', v') :: rest =>
    if str_eqb k' k then (k', v) :: rest else (k', v') :: dict_set rest k v
  end.

Definition str_truthy (s : pystr) : bool :=
  match s with [] => false | _ :: _ => true end.

(** [bool(v)]: Python's truth value. *)
Definition truthy (v : json) : bool :=
  match v with
  | JNull => false
  | JBool b => b
  | JInt z => negb (z =? 0)
  | JFloat r => negb (str_eqb r (lit "0.0") || str_eqb r (lit "-0.0"))
  | JStr s => str_truthy s
  | JList [] => false
  | JList (_ :: _) => true
  | JDict [] => false
  | JDict (_ :: _) => true
  end.

(** [a or b] *)
Definition py_or (a b : json) : json := if truthy a then a else b.

(** [type(v).__name__] *)
Definition json_type_name (v : json) : pystr :=
  match v with
  | JNull => lit "NoneType"
  | JBool _ => lit "bool"
  | JInt _ => lit "int"
  | JFloat _ => lit "float"
  | JStr _ => lit "str"
  | JList _ => lit "list"
  | JDict _ => lit "dict"
  end.

(** ** Exceptions and results

    [HTTPStatusError] and [TimeoutException] are the two classes of
    [httpx] that the classifier tests with [isinstance]; the second has
    subclasses, so it carries the name of the class actually raised.
    [RuntimeError] is raised by the source itself.  The next four are
    raised by the interpreter; the text it attaches to them is not part
    of the model.  [OtherException] is any other exception, given by its
    class name and its [str]. *)

Inductive exn : Type :=
| HTTPStatusError (status_code : Z)
| TimeoutException (type_name descr : pystr)
| RuntimeError (descr : pystr)
| KeyError (key : pystr)
| AttributeError (type_of_object attr : pystr)
| TypeError
| ValueError
| OtherException (type_name descr : pystr).

Inductive result (A : Type) : Type :=
| Ok (a : A)
| Raise (e : exn).

Arguments Ok {A} a.
Arguments Raise {A} e.

Definition bind {A B : Type} (r : result A) (k : A -> result B) : result B :=
  match r with
  | Ok a => k a
  | Raise e => Raise e
  end.

Declare Scope py_scope.
Delimit Scope py_scope with py.
Notation "x <- e ;; k" := (bind e (fun x => k))
  (at level 61, e at next level, right associativity) : py_scope.
Local Open Scope py_scope.

(** A list comprehension whose body may raise: elements are evaluated
    from left to right and the first exception ends the evaluation. *)
Fixpoint comprehension {A B : Type} (f : A -> result B) (l : list A)
  : result (list B) :=
  match l with
  | [] => Ok []
  | a :: rest =>
    b <- f a ;;
    bs <- comprehension f rest ;;
    Ok (b :: bs)
  end.

(** [v.get(k, default)]: only a [dict] has the method. *)
Definition py_get (v : json) (k : pystr) (default : json) : result json :=
  match v with
  | JDict d => Ok (dict_get_or d k default)
  | _ => Raise (AttributeError (json_type_name v) (lit "get"))
  end.

(** [v[k]] for a string key [k]. *)
Definition py_getitem (v : json) (k : pystr) : result json :=
  match v with
  | JDict d =>
    match dict_get d k with
    | Some x => Ok x
    | None => Raise (KeyError k)
    end
  | _ => Raise TypeError
  end.

(** [v[:n]]: a prefix of a [str] or of a [list]; the other values
    cannot be sliced (for a [dict] the interpreter raises [TypeError] up
    to Python 3.11 and [KeyError] from 3.12 on; the model keeps the
    first). *)
Definition py_slice_to (v : json) (n : nat) : result json :=
  match v with
  | JStr s => Ok (JStr (firstn n s))
  | JList l => Ok (JList (firstn n l))
  | _ => Raise TypeError
  end.

(** [for x in v]: a [list] yields its items, a [str] its characters, a
    [dict] its keys. *)
Definition py_iter (v : json) : result (list json) :=
  match v with
  | JList l => Ok l
  | JStr s => Ok (map (fun c => JStr [c]) s)
  | JDict d => Ok (map (fun kv => JStr (fst kv)) d)
  | _ => Raise TypeError
  end.

(** [sep.join(items)]: every item has to be a [str]. *)
Fixpoint str_items (items : list json) : result (list pystr) :=
  match items with
  | [] => Ok []
  | JStr s :: rest => ss <- str_items rest ;; Ok (s :: ss)
  | _ :: _ => Raise TypeError
  end.

Definition py_join (sep : pystr) (items : list json) : result pystr :=
  ss <- str_items items ;; Ok (join sep ss).

Definition py_join_iter (sep : pystr) (v : json) : result pystr :=
  items <- py_iter v ;; py_join sep items.

(** ** XML elements

    An [xml.etree.ElementTree.Element]: tag, attributes, text before the
    first child ([None] when there is none) and children. *)

#[warnings="-register-all"]
Inductive Element : Type :=
| mkElement (tag : pystr) (attrib : list (pystr * pystr))
            (text : option pystr) (children : list Element).

Definition attrib (e : Element) : list (pystr * pystr) :=
  match e with mkElement _ a _ _ => a end.

Definition text (e : Element) : option pystr :=
  match e with mkElement _ _ t _ => t end.

Fixpoint attrib_get (a : list (pystr * pystr)) (k : pystr) : option pystr :=
  match a with
  | [] => None
  | (k', v) :: rest => if str_eqb k' k then Some v else attrib_get rest k
  end.

(** [element.get(key, default)] *)
Definition element_get (e : Element) (k default : pystr) : pystr :=
  match attrib_get (attrib e) k with
  | Some v => v
  | None => default
  end.

(** [paris_extract_text(element, default)] *)
Definition paris_extract_text (element : option Element) (default : pystr)
  : pystr :=
  match element with
  | Some e =>
    match text e with
    | Some t => if str_truthy t then strip t else default
    | None => default
    end
  | None => default
  end.

(** [paris_get_num_hits(root)] *)
Definition paris_get_num_hits (root : Element) : result Z :=
  match py_int (element_get root (lit "numHits") (lit "0")) with
  | Some n => Ok n
  | None => Raise ValueError
  end.

(** ** HTTP

    One GET request is a URL with its query parameters; its outcome is an
    exception of the transport or a response, of which the adapters read
    the status code and the decoded body ([response.json()], which raises
    when the body is not JSON). *)

Record response : Type := mkResponse {
  status_code : Z;
  json_body : result json
}.

(** [response.raise_for_status()] *)
Definition raise_for_status (r : response) : result unit :=
  if (200 <=? status_code r) && (status_code r <=? 299)
  then Ok tt
  else Raise (HTTPStatusError (status_code r)).

Definition CKAN_BASE_URL : pystr := lit "https://data.stadt-zuerich.ch".
Definition CKAN_API_URL : pystr := CKAN_BASE_URL ++ lit "/api/3/action".
Definition WFS_BASE_URL : pystr :=
  lit "https://www.ogd.stadt-zuerich.ch/wfs/geoportal".

Section Interpreter.

(** Two things are left to the interpreter and the libraries: [repr] of a
    [str], which depends on the Unicode database, and the text attached to
    the exceptions they raise themselves. *)
Variable repr_str : pystr -> pystr.
Variable raised_text : exn -> pystr.

(** The network, as seen through [client.get(url, params=params)]. *)
Variable http_get : pystr -> dict -> result response.

(** The backend answers the request with a response of status 2xx whose
    body decodes to [data]. *)
Definition answers (url : pystr) (params : dict) (data : json) : Prop :=
  exists r : response,
    http_get url params = Ok r
    /\ 200 <= status_code r <= 299
    /\ json_body r = Ok data.

(** [repr(v)] *)
Fixpoint py_repr (v : json) : pystr :=
  match v with
  | JNull => lit "None"
  | JBool true => lit "True"
  | JBool false => lit "False"
  | JInt z => str_int z
  | JFloat r => r
  | JStr s => repr_str s
  | JList l => lit "[" ++ join (lit ", ") (map py_repr l) ++ lit "]"
  | JDict d =>
    lit "{"
    ++ join (lit ", ")
         (map (fun kv => repr_str (fst kv) ++ lit ": " ++ py_repr (snd kv)) d)
    ++ lit "}"
  end.

(** [str(v)], which is what an f-string field [{v}] renders. *)
Definition py_str (v : json) : pystr :=
  match v with
  | JStr s => s
  | _ => py_repr v
  end.

(** [type(e).__name__] *)
Definition exn_type_name (e : exn) : pystr :=
  match e with
  | HTTPStatusError _ => lit "HTTPStatusError"
  | TimeoutException n _ => n
  | RuntimeError _ => lit "RuntimeError"
  | KeyError _ => lit "KeyError"
  | AttributeError _ _ => lit "AttributeError"
  | TypeError => lit "TypeError"
  | ValueError => lit "ValueError"
  | OtherException n _ => n
  end.

(** [str(e)] *)
Definition exn_str (e : exn) : pystr :=
  match e with
  | TimeoutException _ d => d
  | RuntimeError d => d
  | KeyError k => repr_str k
  | OtherException _ d => d
  | _ => raised_text e
  end.

(** *** The catalog adapter *)

(** Lines 103 to 107 of [ckan_request]: what is done with the decoded
    body [data]. *)
Definition ckan_result (data : json) : result json :=
  success <- py_get data (lit "success") JNull ;;
  if negb (truthy success)
  then
    error <- py_get data (lit "error") (JDict []) ;;
    error_msg <- py_get error (lit "message") (JStr (lit "Unknown CKAN error")) ;;
    Raise (RuntimeError (lit "CKAN API error: " ++ py_str error_msg))
  else py_getitem data (lit "result").

(** [params or {}] *)
Definition params_or_empty (params : option dict) : dict :=
  match params with
  | Some d => match d with _ :: _ => d | [] => [] end
  | None => []
  end.

(** [ckan_request(action, params)] *)
Definition ckan_request (action : pystr) (params : option dict)
  : result json :=
  let url := CKAN_API_URL ++ lit "/" ++ action in
  response <- http_get url (params_or_empty params) ;;
  _ <- raise_for_status response ;;
  data <- json_body response ;;
  ckan_result data.

(** [http_get_json(url, params)] *)
Definition http_get_json (url : pystr) (params : option dict) : result json :=
  response <- http_get url (params_or_empty params) ;;
  _ <- raise_for_status response ;;
  json_body response.

(** *** The error classifier *)

Definition error_prefix (context : pystr) : pystr :=
  if str_truthy context
  then lit "Fehler bei " ++ context ++ lit ": "
  else lit "Fehler: ".

(** [handle_api_error(e, context)] *)
Definition handle_api_error (e : exn) (context : pystr) : pystr :=
  let prefix := error_prefix context in
  match e with
  | HTTPStatusError status =>
    if status =? 404
    then prefix ++ lit "Ressource nicht gefunden. Bitte ID/Name prüfen."
    else if status =? 403
    then prefix ++ lit "Zugriff verweigert."
    else if status =? 429
    then prefix ++ lit "Zu viele Anfragen. Bitte warten."
    else prefix ++ lit "HTTP-Fehler " ++ str_int status
  | TimeoutException _ _ =>
    prefix ++ lit "Zeitüberschreitung. Bitte erneut versuchen."
  | _ => prefix ++ exn_type_name e ++ lit ": " ++ exn_str e
  end.

(** *** The geodata adapter *)

(** The parameters of the request: the [params] dictionary of
    [wfs_get_features] after the conditional assignment. *)
Definition wfs_params (typename : pystr) (max_features : Z)
    (output_format : pystr) (cql_filter : option pystr) : dict :=
  let params : dict :=
    [ (lit "service", JStr (lit "WFS"));
      (lit "version", JStr (lit "1.1.0"));
      (lit "request", JStr (lit "GetFeature"));
      (lit "typename", JStr typename);
      (lit "outputFormat", JStr output_format);
      (lit "maxFeatures", JStr (str_int max_features)) ] in
  match cql_filter with
  | Some f =>
    if str_truthy f then dict_set params (lit "CQL_FILTER") (JStr f)
    else params
  | None => params
  end.

(** [wfs_get_features(service_name, typename, max_features,
    output_format, cql_filter)] *)
Definition wfs_get_features (service_name typename : pystr)
    (max_features : Z) (output_format : pystr) (cql_filter : option pystr)
  : result json :=
  let url := WFS_BASE_URL ++ lit "/" ++ service_name in
  let params := wfs_params typename max_features output_format cql_filter in
  response <- http_get url params ;;
  _ <- raise_for_status response ;;
  json_body response.

(** *** The dataset formatter *)

(** [g.get(k1, g.get(k2, ""))], the body of the two comprehensions. *)
Definition label (k1 k2 : pystr) (g : json) : result json :=
  fallback <- py_get g k2 (JStr (lit "")) ;;
  py_get g k1 fallback.

Definition nonempty {A : Type} (l : list A) : bool :=
  match l with [] => false | _ :: _ => true end.

(** The list [lines] of [format_dataset_summary] when the function
    reaches its [return]. *)
Definition format_dataset_lines (dataset : json) : result (list pystr) :=
  title <- py_get dataset (lit "title") (JStr (lit "Unbekannt")) ;;
  name <- py_get dataset (lit "name") (JStr (lit "")) ;;
  author <- py_get dataset (lit "author") (JStr (lit "Unbekannt")) ;;
  notes0 <- py_get dataset (lit "notes") JNull ;;
  notes <- py_slice_to (py_or notes0 (JStr (lit ""))) 300 ;;
  license_title <-
    py_get dataset (lit "license_title") (JStr (lit "Unbekannt")) ;;
  num_resources <- py_get dataset (lit "num_resources") (JInt 0) ;;
  modified0 <- py_get dataset (lit "metadata_modified") (JStr (lit "")) ;;
  modified <- py_slice_to modified0 10 ;;
  update_interval <- py_get dataset (lit "updateInterval") (JList []) ;;
  groups0 <- py_get dataset (lit "groups") (JList []) ;;
  group_items <- py_iter groups0 ;;
  groups <- comprehension (label (lit "title") (lit "name")) group_items ;;
  tags0 <- py_get dataset (lit "tags") (JList []) ;;
  tag_items <- py_iter tags0 ;;
  tags <- comprehension (label (lit "display_name") (lit "name")) tag_items ;;
  let url := CKAN_BASE_URL ++ lit "/dataset/" ++ py_str name in
  let lines :=
    [ lit "### " ++ py_str title;
      lit "- **ID**: `" ++ py_str name ++ lit "`";
      lit "- **Autor**: " ++ py_str author;
      lit "- **Lizenz**: " ++ py_str license_title;
      lit "- **Ressourcen**: " ++ py_str num_resources;
      lit "- **Letzte Änderung**: " ++ py_str modified ] in
  lines <-
    (if truthy update_interval
     then s <- py_join_iter (lit ", ") update_interval ;;
          Ok (lines ++ [lit "- **Aktualisierung**: " ++ s])
     else Ok lines) ;;
  lines <-
    (if nonempty groups
     then s <- py_join (lit ", ") groups ;;
          Ok (lines ++ [lit "- **Kategorien**: " ++ s])
     else Ok lines) ;;
  lines <-
    (if nonempty tags
     then s <- py_join (lit ", ") (firstn 10 tags) ;;
          Ok (lines ++ [lit "- **Tags**: " ++ s])
     else Ok lines) ;;
  let lines :=
    if truthy notes
    then lines ++ [lit "- **Beschreibung**: " ++ py_str notes ++ lit "..."]
    else lines in
  Ok (lines ++ [lit "- **URL**: " ++ url]).

(** [format_dataset_summary(dataset)] *)
Definition format_dataset_summary (dataset : json) : result pystr :=
  lines <- format_dataset_lines dataset ;;
  Ok (join [10%N] lines).

End Interpreter.

(** ** Records of the catalog

    The fields of a dataset record that the formatter slices, iterates or
    joins have a type in the catalog: [notes] is a string or null,
    [metadata_modified] a string, [updateInterval] a list of strings,
    [groups] and [tags] lists of objects whose label is a string.  A
    record is well formed when each of these fields, if it is there, has
    its type; nothing is asked of a field that is absent, nor of the
    fields that are only printed. *)

Definition is_str (v : json) : bool :=
  match v with JStr _ => true | _ => false end.

Definition is_str_or_null (v : json) : bool :=
  match v with JStr _ | JNull => true | _ => false end.

Definition is_list_of (p : json -> bool) (v : json) : bool :=
  match v with JList l => forallb p l | _ => false end.

Definition if_present (p : json -> bool) (o : option json) : bool :=
  match o with Some v => p v | None => true end.

Definition labelled (k1 k2 : pystr) (g : json) : bool :=
  match g with
  | JDict e =>
    match dict_get e k1 with
    | Some v => is_str v
    | None => if_present is_str (dict_get e k2)
    end
  | _ => false
  end.

Definition wf_dataset (d : dict) : bool :=
  if_present is_str_or_null (dict_get d (lit "notes"))
  && if_present is_str (dict_get d (lit "metadata_modified"))
  && if_present (is_list_of is_str) (dict_get d (lit "updateInterval"))
  && if_present (is_list_of (labelled (lit "title") (lit "name")))
       (dict_get d (lit "groups"))
  && if_present (is_list_of (labelled (lit "display_name") (lit "name")))
       (dict_get d (lit "tags")).

(** The record [d] without the fields [keep] rejects. *)
Definition restrict (keep : pystr -> bool) (d : dict) : dict :=
  filter (fun kv => keep (fst kv)) d.

(** The text of a field that holds a string, and the empty string for
    any other field. *)
Definition field_str (d : dict) (k : pystr) : pystr :=
  match dict_get d k with
  | Some (JStr s) => s
  | _ => []
  end.

Definition optional_line (present : bool) (line : pystr) : list pystr :=
  if present then [line] else [].

(** The lines of the summary of a well-formed record [d], given the
    strings [ui] of its update intervals and the labels [groups] and
    [tags] of its groups and tags. *)
Definition summary_lines (repr_str : pystr -> pystr) (d : dict)
    (ui groups tags : list pystr) : list pystr :=
  [ lit "### "
      ++ py_str repr_str (dict_get_or d (lit "title") (JStr (lit "Unbekannt")));
    lit "- **ID**: `"
      ++ py_str repr_str (dict_get_or d (lit "name") (JStr (lit "")))
      ++ lit "`";
    lit "- **Autor**: "
      ++ py_str repr_str
           (dict_get_or d (lit "author") (JStr (lit "Unbekannt")));
    lit "- **Lizenz**: "
      ++ py_str repr_str
           (dict_get_or d (lit "license_title") (JStr (lit "Unbekannt")));
    lit "- **Ressourcen**: "
      ++ py_str repr_str (dict_get_or d (lit "num_resources") (JInt 0));
    lit "- **Letzte Änderung**: "
      ++ firstn 10 (field_str d (lit "metadata_modified")) ]
  ++ optional_line (nonempty ui)
       (lit "- **Aktualisierung**: " ++ join (lit ", ") ui)
  ++ optional_line (nonempty groups)
       (lit "- **Kategorien**: " ++ join (lit ", ") groups)
  ++ optional_line (nonempty tags)
       (lit "- **Tags**: " ++ join (lit ", ") (firstn 10 tags))
  ++ optional_line (nonempty (field_str d (lit "notes")))
       (lit "- **Beschreibung**: "
        ++ firstn 300 (field_str d (lit "notes")) ++ lit "...")
  ++ [ lit "- **URL**: " ++ CKAN_BASE_URL ++ lit "/dataset/"
       ++ py_str repr_str (dict_get_or d (lit "name") (JStr (lit ""))) ].

(** ** The other adapters and the resource formatter *)

Definition PARKENDD_URL : pystr := lit "https://api.parkendd.de/Zuerich".
Definition PARIS_API_URL : pystr := lit "https://www.gemeinderat-zuerich.ch/api".
Definition ZT_API_URL : pystr := lit "https://www.zuerich.com/en/api/v2/data".
Definition SPARQL_URL : pystr := lit "https://ld.stadt-zuerich.ch/query".
Definition USER_AGENT : pystr :=
  lit "ZurichOpenDataMCP/0.3 (MCP Server; +https://github.com/schulamt-zurich)".

(** [len(v)] *)
Definition py_len (v : json) : result Z :=
  match v with
  | JStr s => Ok (Z.of_nat (List.length s))
  | JList l => Ok (Z.of_nat (List.length l))
  | JDict d => Ok (Z.of_nat (List.length d))
  | _ => Raise TypeError
  end.

Section Adapters.

Variable repr_str : pystr -> pystr.

(** The network again, and the two things [paris_search] and
    [sparql_query] need beyond it: the XML parser applied to the body of a
    response ([ET.fromstring(response.content)]) and a request that
    carries headers of its own. *)
Variable http_get : pystr -> dict -> result response.
Variable fromstring_content : response -> result Element.
Variable http_get_headers :
  pystr -> dict -> list (pystr * pystr) -> result response.

(** [format_resource_info(resource)] *)
Definition format_resource_info (resource : json) : result pystr :=
  name <- py_get resource (lit "name") (JStr (lit "Unbenannt")) ;;
  format <- py_get resource (lit "format") (JStr (lit "?")) ;;
  url <- py_get resource (lit "url") (JStr (lit "Keine URL")) ;;
  Ok (lit "  - **" ++ py_str repr_str name ++ lit "** "
      ++ lit "(" ++ py_str repr_str format ++ lit ") – "
      ++ py_str repr_str url).

(** [paris_search(index, cql_query, start, max_results)] *)
Definition paris_search (index cql_query : pystr) (start max_results : Z)
  : result Element :=
  let url := PARIS_API_URL ++ lit "/" ++ index ++ lit "/searchdetails" in
  let params : dict :=
    [ (lit "q", JStr cql_query);
      (lit "l", JStr (lit "de-CH"));
      (lit "s", JStr (str_int start));
      (lit "m", JStr (str_int max_results)) ] in
  response <- http_get url params ;;
  _ <- raise_for_status response ;;
  fromstring_content response.

(** [zt_get_categories()] and [zt_get_data(category_id)] *)
Definition zt_get_categories : result json :=
  http_get_json http_get ZT_API_URL None.

Definition zt_get_data (category_id : Z) : result json :=
  http_get_json http_get (ZT_API_URL ++ lit "?id=" ++ str_int category_id)
    None.

(** [sparql_query(query)] *)
Definition sparql_query (query : pystr) : result json :=
  response <-
    http_get_headers SPARQL_URL [(lit "query", JStr query)]
      [ (lit "Accept", lit "application/json");
        (lit "User-Agent", USER_AGENT) ] ;;
  _ <- raise_for_status response ;;
  json_body response.

End Adapters.

(** ** Two tools of [server.py]

    [zurich_search_datasets] and [zurich_sparql] put the adapters, the
    formatter and the classifier together.  Their argument has been
    validated before they are called. *)

Record SearchDatasetsInput : Type := mkSearchDatasetsInput {
  query : pystr;
  rows : Z;
  offset : Z;
  sort : option pystr;
  filter_group : option pystr
}.

(** [v == s] for a string [s] *)
Definition json_eq_str (v : json) (s : pystr) : bool :=
  match v with
  | JStr t => str_eqb t s
  | _ => false
  end.

(** [v.get(key, default)] where the key is any value: the keys of a
    decoded object are strings, so another key that can be hashed is not
    found, and a list or a dictionary cannot be hashed. *)
Definition py_get_key (v key default : json) : result json :=
  match v with
  | JDict d =>
    match key with
    | JStr k => Ok (dict_get_or d k default)
    | JList _ | JDict _ => Raise TypeError
    | _ => Ok default
    end
  | _ => Raise (AttributeError (json_type_name v) (lit "get"))
  end.

(** ["/" in v] *)
Definition py_contains_slash (v : json) : result bool :=
  match v with
  | JStr s => Ok (existsb (N.eqb 47) s)
  | JList l => Ok (existsb (fun x => json_eq_str x (lit "/")) l)
  | JDict d =>
    Ok (match dict_get d (lit "/") with Some _ => true | None => false end)
  | _ => Raise TypeError
  end.

Fixpoint until_slash (s : pystr) : pystr :=
  match s with
  | [] => []
  | c :: t => if (c =? 47)%N then [] else c :: until_slash t
  end.

(** [s.rsplit("/", 1)[-1]]: what follows the last slash of [s]. *)
Definition after_last_slash (s : pystr) : pystr :=
  rev (until_slash (rev s)).

(** [v.rsplit("/", 1)[-1]] *)
Definition py_rsplit_last (v : json) : result pystr :=
  match v with
  | JStr s => Ok (after_last_slash s)
  | _ => Raise (AttributeError (json_type_name v) (lit "rsplit"))
  end.

(** [v[:97] + "..."] *)
Definition py_shorten (v : json) : result json :=
  match v with
  | JStr s => Ok (JStr (firstn 97 s ++ lit "..."))
  | _ => Raise TypeError
  end.

Section Tools.

Variable repr_str : pystr -> pystr.
Variable raised_text : exn -> pystr.
Variable http_get : pystr -> dict -> result response.
Variable http_get_headers :
  pystr -> dict -> list (pystr * pystr) -> result response.

(** Two more things of the interpreter: the comparison [x > n] of a
    [float], given by its [repr], with an [int], and [str.upper], which
    follows the Unicode database. *)
Variable float_gt : pystr -> Z -> bool.
Variable str_upper : pystr -> pystr.

(** [v > n] for an [int] [n] *)
Definition py_gt_int (v : json) (n : Z) : result bool :=
  match v with
  | JInt z => Ok (n <? z)
  | JBool b => Ok (n <? (if b then 1 else 0))
  | JFloat r => Ok (float_gt r n)
  | _ => Raise TypeError
  end.

(** The dictionary [api_params] of [zurich_search_datasets]. *)
Definition search_api_params (params : SearchDatasetsInput) : dict :=
  let api_params : dict :=
    [ (lit "q", JStr (query params));
      (lit "rows", JInt (rows params));
      (lit "start", JInt (offset params)) ] in
  let api_params :=
    match sort params with
    | Some s =>
      if str_truthy s then dict_set api_params (lit "sort") (JStr s)
      else api_params
    | None => api_params
    end in
  match filter_group params with
  | Some g =>
    if str_truthy g
    then dict_set api_params (lit "fq") (JStr (lit "groups:" ++ g))
    else api_params
  | None => api_params
  end.

(** The body of the [try] of [zurich_search_datasets]. *)
Definition search_datasets_body (params : SearchDatasetsInput)
  : result pystr :=
  let api_params := search_api_params params in
  result <-
    ckan_request repr_str http_get (lit "package_search") (Some api_params) ;;
  total <- py_getitem result (lit "count") ;;
  datasets <- py_getitem result (lit "results") ;;
  if negb (truthy datasets)
  then Ok (lit "Keine Datensätze gefunden für '" ++ query params ++ lit "'.")
  else
    n <- py_len datasets ;;
    let lines :=
      [ lit "## Suchergebnis: " ++ py_str repr_str total
          ++ lit " Datensätze für '" ++ query params ++ lit "'";
        lit "Zeige " ++ str_int n ++ lit " von " ++ py_str repr_str total
          ++ lit " (Offset: " ++ str_int (offset params) ++ lit ")"
          ++ [10%N] ] in
    items <- py_iter datasets ;;
    summaries <- comprehension (format_dataset_summary repr_str) items ;;
    let lines := lines ++ flat_map (fun s => [s; []]) summaries in
    n <- py_len datasets ;;
    more <- py_gt_int total (offset params + n) ;;
    let lines :=
      if more
      then lines
           ++ [ lit "*→ Weitere Ergebnisse mit offset="
                ++ str_int (offset params + n) ++ lit "*" ]
      else lines in
    Ok (join [10%N] lines).

(** [zurich_search_datasets(params)] *)
Definition zurich_search_datasets (params : SearchDatasetsInput) : pystr :=
  match search_datasets_body params with
  | Ok s => s
  | Raise e => handle_api_error repr_str raised_text e (lit "Datensatzsuche")
  end.

(** One cell of the table of [zurich_sparql]: the body of the inner
    loop, which gives the value appended to [row]. *)
Definition sparql_cell (binding var : json) : result json :=
  cell <- py_get_key binding var (JDict []) ;;
  value <- py_get cell (lit "value") (JStr (lit "")) ;;
  type <- py_get cell (lit "type") JNull ;;
  value <-
    (if json_eq_str type (lit "uri")
     then
       has_slash <- py_contains_slash value ;;
       if has_slash
       then
         short <- py_rsplit_last value ;;
         if (Z.of_nat (List.length short) <? 80)
         then Ok (JStr short)
         else Ok value
       else Ok value
     else Ok value) ;;
  n <- py_len value ;;
  if 100 <? n then py_shorten value else Ok value.

(** One line of the table: the body of the outer loop. *)
Definition sparql_row (variables : list json) (binding : json)
  : result pystr :=
  row <- comprehension (sparql_cell binding) variables ;;
  s <- py_join (lit " | ") row ;;
  Ok (lit "| " ++ s ++ lit " |").

(** The list [lines] of [zurich_sparql] when the function reaches its
    last [return]. *)
Definition sparql_lines (variables bindings : json) : result (list pystr) :=
  n <- py_len bindings ;;
  names <- py_join_iter (lit ", ") variables ;;
  let lines :=
    [ lit "## SPARQL-Ergebnis";
      lit "**" ++ str_int n ++ lit " Zeilen**, Variablen: " ++ names
        ++ [10%N] ] in
  header <- py_join_iter (lit " | ") variables ;;
  let lines := lines ++ [lit "| " ++ header ++ lit " |"] in
  vars <- py_iter variables ;;
  let lines :=
    lines
    ++ [lit "| " ++ join (lit " | ") (map (fun _ => lit "---") vars)
        ++ lit " |"] in
  first <- py_slice_to bindings 100 ;;
  shown <- py_iter first ;;
  table <- comprehension (sparql_row vars) shown ;;
  let lines := lines ++ table in
  n <- py_len bindings ;;
  let lines :=
    if 100 <? n
    then lines
         ++ [[10%N] ++ lit "*Zeige 100 von " ++ str_int n ++ lit " Zeilen*"]
    else lines in
  Ok (lines ++ [[10%N] ++ lit "*Endpoint: " ++ SPARQL_URL ++ lit "*"]).

(** The body of the [try] of [zurich_sparql]. *)
Definition sparql_body (query : pystr) : result pystr :=
  let query_upper := str_upper (strip query) in
  if negb (startswith query_upper (lit "SELECT"))
     && negb (startswith query_upper (lit "PREFIX"))
  then Ok (lit "Nur SELECT-Abfragen sind erlaubt.")
  else
    result <- sparql_query http_get_headers query ;;
    head <- py_get result (lit "head") (JDict []) ;;
    variables <- py_get head (lit "vars") (JList []) ;;
    results <- py_get result (lit "results") (JDict []) ;;
    bindings <- py_get results (lit "bindings") (JList []) ;;
    if negb (truthy bindings)
    then Ok (lit "SPARQL-Abfrage lieferte keine Ergebnisse.")
    else
      lines <- sparql_lines variables bindings ;;
      Ok (join [10%N] lines).

(** [zurich_sparql(params)], for the query of [params] *)
Definition zurich_sparql (query : pystr) : pystr :=
  match sparql_body query with
  | Ok s => s
  | Raise e => handle_api_error repr_str raised_text e (lit "SPARQL-Abfrage")
  end.

End Tools.




(** The layers of the geoportal: identifier, then service, type name and
    description. *)
Definition GEOPORTAL_LAYERS : list (pystr * (pystr * pystr * pystr)) :=
  [ (lit "schulanlagen",
     (lit "Schulanlagen", lit "poi_kindergarten_view",
      lit "Schulstandorte (Kindergärten, Schulhäuser, Horte)"));
    (lit "schulkreise",
     (lit "Schulkreise", lit "adm_schulkreise_a",
      lit "Schulkreis-Grenzen (Polygone)"));
    (lit "schulwege",
     (lit "Schulweguebergaenge", lit "poi_schulweg_att",
      lit "Schulweg-Übergänge und Gefahrenstellen"));
    (lit "stadtkreise",
     (lit "Stadtkreise", lit "adm_stadtkreise_a",
      lit "Stadtkreis-Grenzen (Polygone)"));
    (lit "spielplaetze",
     (lit "POI_oeffentliche_Spielplaetze", lit "poi_oeffentl_spielplatz_view",
      lit "Öffentliche Spielplätze"));
    (lit "kreisbuero",
     (lit "Kreisbuero", lit "poi_kreisbuero_view",
      lit "Kreisbüros der Stadt Zürich"));
    (lit "sammelstelle",
     (lit "Sammelstelle", lit "poi_sammelstelle_view",
      lit "Abfall-Sammelstellen"));
    (lit "sport",
     (lit "Sport", lit "poi_sport_view", lit "Sportanlagen und -einrichtungen"));
    (lit "klimadaten",
     (lit "Klimadaten", lit "klimadaten_raster",
      lit "Klimadaten (Raster, Temperaturen, Hitzeinseln)"));
    (lit "lehrpfade",
     (lit "Lehrpfade", lit "poi_lehrpfad_view", lit "Lehrpfade und Bildungswege"));
    (lit "stimmlokale",
     (lit "Stimmlokale", lit "poi_stimmlokale_view",
      lit "Abstimmungs- und Wahllokale"));
    (lit "sozialzentrum",
     (lit "Sozialzentrum", lit "poi_sozialzentrum_view", lit "Sozialzentren"));
    (lit "velopruefstrecken",
     (lit "Velopruefstrecken", lit "poi_velopruefstrecke_view",
      lit "Veloprüfstrecken für Schulen"));
    (lit "familienberatung",
     (lit "Treffpunkt_Familienberatung", lit "poi_familienberatung_view",
      lit "Familienberatungs-Treffpunkte")) ].

Fixpoint layer_get (layers : list (pystr * (pystr * pystr * pystr)))
    (layer_id : pystr) : option (pystr * pystr * pystr) :=
  match layers with
  | [] => None
  | (k, v) :: rest => if str_eqb k layer_id then Some v else layer_get rest layer_id
  end.

Section MoreTools.

Variable repr_str : pystr -> pystr.
Variable raised_text : exn -> pystr.
Variable http_get : pystr -> dict -> result response.

(** [json.dumps(v)] and [json.dumps(v, indent=2, ensure_ascii=False,
    default=str)], which are total on decoded values. *)
Variable json_dumps : json -> pystr.
Variable json_dumps_indent : json -> pystr.



(** [get_geo_resource(layer_id)] *)
Definition get_geo_resource (layer_id : pystr) : result pystr :=
  match layer_get GEOPORTAL_LAYERS layer_id with
  | None =>
    Ok (json_dumps
          (JDict [(lit "error", JStr (lit "Unknown layer: " ++ layer_id))]))
  | Some (service_name, typename, _) =>
    data <-
      wfs_get_features http_get service_name typename 500 (lit "GeoJSON") None ;;
    Ok (json_dumps_indent data)
  end.

End MoreTools.

(** The datasets of a search result, as the formatter wants them. *)
Definition is_wf_dataset (v : json) : bool :=
  match v with
  | JDict d => wf_dataset d
  | _ => false
  end.

(** ** Sample data

    Values used to run the functions: a backend that gives the same
    response to every request, catalog envelopes, a feature collection and
    a dataset record. *)

Definition constant_backend (r : response) : pystr -> dict -> result response :=
  fun _ _ => Ok r.

Definition ok_response (data : json) : response :=
  {| status_code := 200; json_body := Ok data |}.

Definition plain_repr (s : pystr) : pystr := lit "'" ++ s ++ lit "'".

Definition no_text (e : exn) : pystr := [].

Definition search_result : json :=
  JDict [ (lit "count", JInt 120);
          (lit "results",
           JList [ JDict [(lit "name", JStr (lit "ssd_schulferien"))];
                   JDict [(lit "name", JStr (lit "ssd_schulkreise"))];
                   JDict [(lit "name", JStr (lit "ssd_schulwege"))] ]) ].

Definition success_envelope : dict :=
  [ (lit "help", JStr (lit "https://data.stadt-zuerich.ch/api/3/action/help_show"));
    (lit "success", JBool true);
    (lit "result", search_result) ].

Definition failure_envelope : dict :=
  [ (lit "success", JBool false);
    (lit "error",
     JDict [ (lit "message", JStr (lit "Nicht gefunden"));
             (lit "__type", JStr (lit "Not Found Error")) ]) ].

Definition bare_failure_envelope : dict := [ (lit "success", JBool false) ].

Definition envelope_without_success : dict :=
  [ (lit "help", JStr (lit "https://data.stadt-zuerich.ch/api/3/action/help_show")) ].

Definition search_params : dict :=
  [ (lit "q", JStr (lit "Schule")); (lit "rows", JInt 3) ].

Definition point_feature : json :=
  JDict [ (lit "type", JStr (lit "Feature"));
          (lit "geometry",
           JDict [ (lit "type", JStr (lit "Point"));
                   (lit "coordinates", JList [JInt 2683000; JInt 1248000]) ]);
          (lit "properties", JDict [(lit "name", JStr (lit "Kindergarten"))]) ].

Definition feature_collection : json :=
  JDict [ (lit "type", JStr (lit "FeatureCollection"));
          (lit "features", JList (repeat point_feature 5)) ].

Definition search_response : Element :=
  mkElement (lit "SearchDetailResponse")
    [ (lit "q", lit "Titel any Schule"); (lit "numHits", lit "42") ] None
    [ mkElement (lit "Hit") [] None [];
      mkElement (lit "Hit") [] None [];
      mkElement (lit "Hit") [] None [] ].

Definition tag (name : pystr) : json :=
  JDict [ (lit "display_name", JStr name); (lit "name", JStr name) ].

Definition sample_dataset : dict :=
  [ (lit "name", JStr (lit "ssd_schulferien"));
    (lit "title", JStr (lit "Schulferien"));
    (lit "author", JNull);
    (lit "notes", JStr (lit "Ferien der Volksschule der Stadt Zürich."));
    (lit "num_resources", JInt 2);
    (lit "metadata_modified", JStr (lit "2024-05-13T09:21:47.123456"));
    (lit "updateInterval", JList [JStr (lit "jaehrlich")]);
    (lit "groups", JList [JDict [(lit "name", JStr (lit "bildung"))]]);
    (lit "tags",
     JList (map tag
              [ lit "a"; lit "b"; lit "c"; lit "d"; lit "e"; lit "f";
                lit "g"; lit "h"; lit "i"; lit "j"; lit "k"; lit "l" ])) ].

Definition failing_backend (e : exn) : pystr -> dict -> result response :=
  fun _ _ => Raise e.

Definition constant_backend_headers (r : response)
  : pystr -> dict -> list (pystr * pystr) -> result response :=
  fun _ _ _ => Ok r.

Definition failing_backend_headers (e : exn)
  : pystr -> dict -> list (pystr * pystr) -> result response :=
  fun _ _ _ => Raise e.

Definition no_parser (r : response) : result Element :=
  Raise (OtherException (lit "ParseError") (lit "no element found")).

Definition not_found_response : response :=
  {| status_code := 404; json_body := Ok (JDict failure_envelope) |}.

Definition no_float_gt (r : pystr) (n : Z) : bool := false.

(** Upper case for the letters a to z, enough for the sample queries. *)
Definition ascii_upper (s : pystr) : pystr :=
  map (fun c => if ((97 <=? c) && (c <=? 122))%N then (c - 32)%N else c) s.

Definition school_search : SearchDatasetsInput :=
  {| query := lit "Schule"; rows := 3; offset := 0;
     sort := None; filter_group := Some (lit "bildung") |}.

Definition two_datasets : json :=
  JDict [ (lit "count", JInt 120);
          (lit "results",
           JList [ JDict sample_dataset;
                   JDict [(lit "name", JStr (lit "ssd_schulkreise"))] ]) ].

Definition empty_sparql_result : json :=
  JDict [ (lit "head", JDict [(lit "vars", JList [JStr (lit "year"); JStr (lit "pop")])]);
          (lit "results", JDict [(lit "bindings", JList [])]) ].

Definition read_timeout : exn :=
  TimeoutException (lit "ReadTimeout") (lit "timed out").

Definition envelope_without_result : dict := [ (lit "success", JBool true) ].

Definition envelope_with_text_success : dict :=
  [ (lit "success", JStr (lit "false")); (lit "result", JInt 7) ].

Definition dataset_with_null_date : dict :=
  [ (lit "name", JStr (lit "ssd_schulferien"));
    (lit "metadata_modified", JNull) ].

Definition titel_element : Element :=
  mkElement (lit "Titel") [] (Some (lit "  Budget 2024 ")) [].

(** A backend that knows the catalog only. *)
Definition catalog_backend (r : response) : pystr -> dict -> result response :=
  fun url _ => if startswith url CKAN_API_URL then Ok r else Raise read_timeout.

Definition no_results : json :=
  JDict [ (lit "count", JInt 0); (lit "results", JList []) ].

Definition envelope_of (result : json) : dict :=
  [ (lit "success", JBool true); (lit "result", result) ].

Definition long_cell : dict :=
  [ (lit "type", JStr (lit "literal"));
    (lit "value", JStr (repeat 120%N 150)) ].


Definition plain_dumps (v : json) : pystr := lit "<json>".




(** * Properties *)

Arguments lit : simpl never.

(** ** Strings and dictionaries *)

Lemma str_eqb_refl (a : pystr) : str_eqb a a = true.
Proof.
  induction a as [|x a IH]; simpl; [reflexivity|].
  now rewrite N.eqb_refl, IH.
Qed.

Lemma str_eqb_eq (a b : pystr) : str_eqb a b = true <-> a = b.
Proof.
  split.
  - revert b; induction a as [|x a IH]; intros [|y b] H; simpl in H;
      try discriminate; [reflexivity|].
    apply andb_true_iff in H as [Hx Hab].
    apply N.eqb_eq in Hx. now rewrite Hx, (IH b Hab).
  - intros ->. apply str_eqb_refl.
Qed.

Lemma str_truthy_false (s : pystr) : str_truthy s = false <-> s = [].
Proof. destruct s; simpl; split; intros H; congruence. Qed.

Lemma dict_get_restrict (keep : pystr -> bool) (d : dict) (k : pystr) :
  dict_get (restrict keep d) k = if keep k then dict_get d k else None.
Proof.
  induction d as [|[k' v] d IH]; simpl.
  - now destruct (keep k).
  - destruct (str_eqb k' k) eqn:E.
    + apply str_eqb_eq in E. subst k'.
      destruct (keep k) eqn:K; simpl.
      * now rewrite str_eqb_refl.
      * exact IH.
    + destruct (keep k') eqn:K'; simpl; [rewrite E|]; exact IH.
Qed.

Lemma dict_get_set (d : dict) (k k' : pystr) (v : json) :
  dict_get (dict_set d k v) k'
  = if str_eqb k k' then Some v else dict_get d k'.
Proof.
  induction d as [|[k0 v0] d IH]; simpl.
  - reflexivity.
  - destruct (str_eqb k0 k) eqn:E; simpl.
    + apply str_eqb_eq in E. subst k0. now destruct (str_eqb k k').
    + rewrite IH. destruct (str_eqb k0 k') eqn:E'; [|reflexivity].
      apply str_eqb_eq in E'. subst k0.
      destruct (str_eqb k k') eqn:E2; [|reflexivity].
      apply str_eqb_eq in E2. subst k'.
      rewrite str_eqb_refl in E. discriminate.
Qed.

Lemma dict_set_fresh (d : dict) (k : pystr) (v : json) :
  dict_get d k = None -> dict_set d k v = d ++ [(k, v)].
Proof.
  induction d as [|[k0 v0] d IH]; simpl; intros H; [reflexivity|].
  destruct (str_eqb k0 k); [discriminate|]. now rewrite IH.
Qed.

Lemma lstrip_spaces (s : pystr) :
  forallb isspace s = true -> lstrip s = [].
Proof.
  induction s as [|c s IH]; simpl; intros H; [reflexivity|].
  apply andb_true_iff in H as [Hc Hs]. rewrite Hc. now apply IH.
Qed.

Lemma strip_spaces (s : pystr) : forallb isspace s = true -> strip s = [].
Proof. intros H. unfold strip. rewrite (lstrip_spaces s H). reflexivity. Qed.

(** ** Decimal numerals *)

Lemma scan_uint_codes (d : Decimal.uint) (acc : Z) (n : N) :
  scan_digits (uint_codes d) true acc n
  = Some (dec_value d acc, (n + N.of_nat (List.length (uint_codes d)))%N, []).
Proof.
  revert acc n.
  induction d as [|d IH|d IH|d IH|d IH|d IH|d IH|d IH|d IH|d IH|d IH];
    intros acc n;
    [ simpl; now rewrite N.add_0_r | .. ];
    cbn [uint_codes dec_value]; unfold scan_digits; fold scan_digits;
    match goal with
    | |- context [ascii_digit ?c] => change (ascii_digit c) with true
    end;
    cbv iota; rewrite IH; cbn [List.length];
    rewrite Nat2N.inj_succ; do 3 f_equal; lia.
Qed.

Lemma dec_value_pos (d : Decimal.uint) (p : positive) :
  dec_value d (Z.pos p) = Z.pos (Pos.of_uint_acc d p).
Proof.
  revert p.
  induction d as [|d IH|d IH|d IH|d IH|d IH|d IH|d IH|d IH|d IH|d IH];
    intros p; [reflexivity | ..]; cbn [dec_value Pos.of_uint_acc];
    rewrite <- IH; f_equal; lia.
Qed.

Lemma dec_value_zero (d : Decimal.uint) :
  dec_value d 0 = Z.of_N (N.of_uint d).
Proof.
  unfold N.of_uint.
  induction d as [|d IH|d IH|d IH|d IH|d IH|d IH|d IH|d IH|d IH|d IH];
    [reflexivity | exact IH | ..];
    cbn [dec_value Pos.of_uint]; apply dec_value_pos.
Qed.

Lemma uint_codes_digits (d : Decimal.uint) :
  forallb ascii_digit (uint_codes d) = true.
Proof. induction d; simpl; auto. Qed.

Lemma map_to_ascii_digits (s : pystr) :
  forallb ascii_digit s = true -> map to_ascii_decimal s = s.
Proof.
  induction s as [|c s IH]; simpl; intros H; [reflexivity|].
  apply andb_true_iff in H as [Hc Hs]. rewrite (IH Hs). f_equal.
  unfold ascii_digit in Hc. apply andb_true_iff in Hc as [_ Hc].
  apply N.leb_le in Hc. unfold to_ascii_decimal.
  replace (c <? 128)%N with true; [reflexivity|].
  symmetry. apply N.ltb_lt. lia.
Qed.


Lemma scan_digits_first (c : N) (t : pystr) (acc : Z) (n : N) :
  ascii_digit c = true ->
  scan_digits (c :: t) false acc n = scan_digits (c :: t) true acc n.
Proof. intros H. simpl. now rewrite H. Qed.

Lemma digit_plain (c : N) :
  ascii_digit c = true ->
  ascii_space c = false /\ (c =? 45)%N = false /\ (c =? 43)%N = false.
Proof.
  unfold ascii_digit, ascii_space. intros H.
  apply andb_true_iff in H as [H1 H2]. apply N.leb_le in H1, H2.
  repeat split.
  - apply orb_false_iff. split.
    + apply andb_false_iff. right. apply N.leb_gt. lia.
    + apply N.eqb_neq. lia.
  - apply N.eqb_neq. lia.
  - apply N.eqb_neq. lia.
Qed.

Lemma py_int_digits (neg : bool) (d : Decimal.uint) :
  d <> Decimal.Nil ->
  (List.length (uint_codes d) <= 4300)%nat ->
  py_int ((if neg then [45%N] else []) ++ uint_codes d)
  = Some (if neg then - dec_value d 0 else dec_value d 0).
Proof.
  intros Hd Hlen.
  pose proof (uint_codes_digits d) as Hall.
  destruct (uint_codes d) as [|c t] eqn:E.
  { destruct d; try discriminate. contradiction. }
  assert (Hc : ascii_digit c = true).
  { simpl in Hall. now apply andb_true_iff in Hall as [Hc _]. }
  destruct (digit_plain c Hc) as (Hsp & H45 & H43).
  pose proof (scan_uint_codes d 0 0) as Hs. rewrite E in Hs.
  rewrite <- (scan_digits_first c t 0 0 Hc) in Hs.
  assert (Hlim : (int_max_str_digits <? 0 + N.of_nat (List.length (c :: t)))%N
                 = false).
  { apply N.ltb_ge. unfold int_max_str_digits. lia. }
  unfold py_int. rewrite map_app, (map_to_ascii_digits (c :: t) Hall).
  destruct neg.
  - change (map to_ascii_decimal [45%N] ++ c :: t) with (45%N :: c :: t).
    cbn [skip_spaces]. change (ascii_space 45) with false. cbv iota.
    change (45 =? 45)%N with true. cbv iota.
    rewrite Hs. cbn [skip_spaces]. now rewrite Hlim.
  - change (map to_ascii_decimal [] ++ c :: t) with (c :: t).
    cbn [skip_spaces]. rewrite Hsp, H45, H43.
    rewrite Hs. cbn [skip_spaces]. now rewrite Hlim.
Qed.

Lemma to_uint_nonnil (n : N) : N.to_uint n <> Decimal.Nil.
Proof.
  destruct n as [|p]; [discriminate|].
  apply DecimalPos.Unsigned.to_uint_nonnil.
Qed.

(** [int] gives back the number that [str] has written, as long as the
    numeral is within the limit on digits. *)
Lemma py_int_str_int (z : Z) :
  (List.length (str_int z) <= 4300)%nat -> py_int (str_int z) = Some z.
Proof.
  unfold str_int. intros Hlen.
  rewrite py_int_digits.
  - rewrite dec_value_zero, DecimalN.Unsigned.of_to.
    destruct (Z.ltb_spec z 0); f_equal; lia.
  - apply to_uint_nonnil.
  - rewrite length_app in Hlen. lia.
Qed.

(** ** The XML helpers *)

(** C5.  [paris_extract_text] returns the default for an absent element,
    for an element without text and for an element whose text is the empty
    string; for a present element whose text is not empty it returns that
    text stripped.  Being a total function it does not raise. *)
Theorem paris_extract_text_spec (default : pystr) :
  paris_extract_text None default = default
  /\ (forall e, text e = None -> paris_extract_text (Some e) default = default)
  /\ (forall e, text e = Some [] ->
        paris_extract_text (Some e) default = default)
  /\ (forall e t, text e = Some t -> t <> [] ->
        paris_extract_text (Some e) default = strip t).
Proof.
  repeat split.
  - intros e H. simpl. now rewrite H.
  - intros e H. simpl. now rewrite H.
  - intros e t H Ht. simpl. rewrite H.
    destruct t as [|c t]; [contradiction|reflexivity].
Qed.

(** C9.  For a present element whose text is not empty but made of white
    space only, [paris_extract_text] returns the empty string whatever the
    default is; more generally the result for a present element with a
    non-empty text does not depend on the default, and the default is the
    result exactly in the three remaining cases (no element, no text,
    empty text). *)
Theorem paris_extract_text_whitespace (default : pystr) :
  (forall e t, text e = Some t -> t <> [] -> forallb isspace t = true ->
     paris_extract_text (Some e) default = [])
  /\ (forall e t other, text e = Some t -> t <> [] ->
        paris_extract_text (Some e) default
        = paris_extract_text (Some e) other)
  /\ (forall element,
        element = None
        \/ (exists e, element = Some e
                      /\ (text e = None \/ text e = Some [])) ->
        paris_extract_text element default = default).
Proof.
  repeat split.
  - intros e t H Ht Hs. simpl. rewrite H.
    destruct t as [|c t]; [contradiction|].
    change (strip (c :: t) = []). now apply strip_spaces.
  - intros e t other H Ht. simpl. rewrite H.
    destruct t as [|c t]; [contradiction|reflexivity].
  - intros element [-> | (e & -> & [H | H])]; simpl;
      [reflexivity| now rewrite H | now rewrite H].
Qed.

(** C2, as the code has it.  [paris_get_num_hits] reads the [numHits]
    attribute of the root and parses it with [int]: a root without the
    attribute gives 0, an attribute that [int] accepts gives its value,
    and an attribute that [int] rejects makes the call raise
    [ValueError].  In particular an attribute that is the decimal numeral
    of [z] gives [z]. *)
Theorem paris_get_num_hits_spec (root : Element) :
  match attrib_get (attrib root) (lit "numHits") with
  | None => paris_get_num_hits root = Ok 0
  | Some v =>
    match py_int v with
    | Some n => paris_get_num_hits root = Ok n
    | None => paris_get_num_hits root = Raise ValueError
    end
  end
  /\ (forall z,
        attrib_get (attrib root) (lit "numHits") = Some (str_int z) ->
        (List.length (str_int z) <= 4300)%nat ->
        paris_get_num_hits root = Ok z).
Proof.
  unfold paris_get_num_hits, element_get. split.
  - destruct (attrib_get (attrib root) (lit "numHits")) as [v|].
    + destruct (py_int v); reflexivity.
    + reflexivity.
  - intros z Hz Hlen. now rewrite Hz, py_int_str_int.
Qed.

(** C2 fails as stated: a root whose [numHits] is not a number makes
    [paris_get_num_hits] raise instead of returning 0. *)
Lemma paris_get_num_hits_malformed :
  paris_get_num_hits
    (mkElement (lit "SearchDetailResponse") [(lit "numHits", lit "abc")]
               None [])
  = Raise ValueError
  /\ paris_get_num_hits
       (mkElement (lit "SearchDetailResponse") [(lit "numHits", lit "abc")]
                  None [])
     <> Ok 0.
Proof. split; [reflexivity | discriminate]. Qed.

(** ** The geodata adapter *)

(** C7, as the code has it.  The parameters are the six fixed entries,
    followed by [CQL_FILTER] with the caller's string unchanged when the
    filter is a non-empty string, and by nothing when there is no filter
    or the filter is empty; when the backend answers the request built
    from them with a 2xx response, [wfs_get_features] returns the decoded
    body itself. *)
Theorem wfs_get_features_request (service_name typename : pystr)
    (max_features : Z) (output_format : pystr) (cql_filter : option pystr) :
  wfs_params typename max_features output_format cql_filter
  = [ (lit "service", JStr (lit "WFS"));
      (lit "version", JStr (lit "1.1.0"));
      (lit "request", JStr (lit "GetFeature"));
      (lit "typename", JStr typename);
      (lit "outputFormat", JStr output_format);
      (lit "maxFeatures", JStr (str_int max_features)) ]
    ++ match cql_filter with
       | Some (c :: f) => [(lit "CQL_FILTER", JStr (c :: f))]
       | _ => []
       end
  /\ forall (http_get : pystr -> dict -> result response) (data : json),
       answers http_get (WFS_BASE_URL ++ lit "/" ++ service_name)
         (wfs_params typename max_features output_format cql_filter) data ->
       wfs_get_features http_get service_name typename max_features
         output_format cql_filter
       = Ok data.
Proof.
  split.
  - destruct cql_filter as [[|c f]|]; reflexivity.
  - intros http_get data (r & Hr & Hs & Hj).
    unfold wfs_get_features. rewrite Hr. simpl.
    unfold raise_for_status.
    replace (200 <=? status_code r) with true by (symmetry; apply Z.leb_le; lia).
    replace (status_code r <=? 299) with true by (symmetry; apply Z.leb_le; lia).
    simpl. exact Hj.
Qed.

(** C10.  An empty filter is no filter: the parameters, and with them
    the whole call, are those of a call without filter, and carry no
    [CQL_FILTER]; a non-empty filter is added under that key. *)
Theorem wfs_get_features_empty_filter (service_name typename : pystr)
    (max_features : Z) (output_format : pystr) :
  wfs_params typename max_features output_format (Some [])
  = wfs_params typename max_features output_format None
  /\ dict_get (wfs_params typename max_features output_format (Some []))
       (lit "CQL_FILTER") = None
  /\ (forall http_get : pystr -> dict -> result response,
        wfs_get_features http_get service_name typename max_features
          output_format (Some [])
        = wfs_get_features http_get service_name typename max_features
            output_format None)
  /\ (forall c f,
        dict_get
          (wfs_params typename max_features output_format (Some (c :: f)))
          (lit "CQL_FILTER")
        = Some (JStr (c :: f))).
Proof.
  repeat split; reflexivity.
Qed.

(** ** The error classifier *)

(** C3.  [handle_api_error] is a total function to strings.  Its result
    is always the prefix made from the context label ([Fehler bei
    <context>: ], or [Fehler: ] for the empty label) followed by a text
    that does not depend on the context: the fixed texts of the statuses
    404, 403 and 429, then the generic text with the status for any other
    HTTP status failure, then the timeout text, and for every other
    failure its class name and description. *)
Theorem handle_api_error_classifies (repr_str : pystr -> pystr)
    (raised_text : exn -> pystr) (context : pystr) :
  error_prefix context
  = match context with
    | [] => lit "Fehler: "
    | _ :: _ => lit "Fehler bei " ++ context ++ lit ": "
    end
  /\ handle_api_error repr_str raised_text (HTTPStatusError 404) context
     = error_prefix context
       ++ lit "Ressource nicht gefunden. Bitte ID/Name prüfen."
  /\ handle_api_error repr_str raised_text (HTTPStatusError 403) context
     = error_prefix context ++ lit "Zugriff verweigert."
  /\ handle_api_error repr_str raised_text (HTTPStatusError 429) context
     = error_prefix context ++ lit "Zu viele Anfragen. Bitte warten."
  /\ (forall status, status <> 404 -> status <> 403 -> status <> 429 ->
        handle_api_error repr_str raised_text (HTTPStatusError status) context
        = error_prefix context ++ lit "HTTP-Fehler " ++ str_int status)
  /\ (forall name descr,
        handle_api_error repr_str raised_text (TimeoutException name descr)
          context
        = error_prefix context
          ++ lit "Zeitüberschreitung. Bitte erneut versuchen.")
  /\ (forall e,
        (forall status, e <> HTTPStatusError status) ->
        (forall name descr, e <> TimeoutException name descr) ->
        handle_api_error repr_str raised_text e context
        = error_prefix context
          ++ exn_type_name e ++ lit ": " ++ exn_str repr_str raised_text e).
Proof.
  repeat split.
  - now destruct context.
  - intros status H404 H403 H429. unfold handle_api_error.
    apply Z.eqb_neq in H404, H403, H429.
    now rewrite H404, H403, H429.
  - intros e Hs Ht.
    destruct e; try reflexivity.
    + now elim (Hs status_code0).
    + now elim (Ht type_name descr).
Qed.

(** ** The catalog adapter *)

Lemma raise_for_status_ok (r : response) :
  200 <= status_code r <= 299 -> raise_for_status r = Ok tt.
Proof.
  intros [H1 H2]. unfold raise_for_status.
  apply Z.leb_le in H1, H2. now rewrite H1, H2.
Qed.

(** Once the backend has answered with a decoded body, [ckan_request] is
    what [ckan_result] makes of that body. *)
Lemma ckan_request_answered (repr_str : pystr -> pystr)
    (http_get : pystr -> dict -> result response)
    (action : pystr) (params : option dict) (data : json) :
  answers http_get (CKAN_API_URL ++ lit "/" ++ action)
    (params_or_empty params) data ->
  ckan_request repr_str http_get action params = ckan_result repr_str data.
Proof.
  intros (r & Hr & Hs & Hj). unfold ckan_request.
  rewrite Hr. simpl. rewrite (raise_for_status_ok r Hs). simpl.
  now rewrite Hj.
Qed.

(** The failure branch of [ckan_result], for an envelope whose [success]
    is absent or has a false truth value. *)
Lemma ckan_result_failure (repr_str : pystr -> pystr) (d : dict) :
  truthy (match dict_get d (lit "success") with
          | Some v => v
          | None => JNull
          end) = false ->
  ckan_result repr_str (JDict d)
  = match dict_get d (lit "error") with
    | None =>
      Raise (RuntimeError (lit "CKAN API error: Unknown CKAN error"))
    | Some (JDict err) =>
      Raise (RuntimeError
               (lit "CKAN API error: "
                ++ match dict_get err (lit "message") with
                   | Some m => py_str repr_str m
                   | None => lit "Unknown CKAN error"
                   end))
    | Some v => Raise (AttributeError (json_type_name v) (lit "get"))
    end.
Proof.
  intros H. unfold ckan_result. simpl. unfold dict_get_or at 1.
  rewrite H. simpl. unfold dict_get_or.
  destruct (dict_get d (lit "error")) as [v|].
  - destruct v; try reflexivity. simpl. unfold dict_get_or.
    now destruct (dict_get entries (lit "message")).
  - vm_compute. reflexivity.
Qed.

(** C1, as the code has it.  When the decoded envelope has [success]
    false, [ckan_request] never returns: with no [error] field, or with an
    [error] object, it raises [RuntimeError] with the text [CKAN API
    error: ] followed by the [message] of that object, or by [Unknown CKAN
    error] when there is no message; with an [error] field that is not an
    object the call to [get] on it raises [AttributeError]. *)
Theorem ckan_request_failure_envelope (repr_str : pystr -> pystr)
    (http_get : pystr -> dict -> result response)
    (action : pystr) (params : option dict) (d : dict) :
  answers http_get (CKAN_API_URL ++ lit "/" ++ action)
    (params_or_empty params) (JDict d) ->
  dict_get d (lit "success") = Some (JBool false) ->
  (forall r, ckan_request repr_str http_get action params <> Ok r)
  /\ ckan_request repr_str http_get action params
     = match dict_get d (lit "error") with
       | None =>
         Raise (RuntimeError (lit "CKAN API error: Unknown CKAN error"))
       | Some (JDict err) =>
         Raise (RuntimeError
                  (lit "CKAN API error: "
                   ++ match dict_get err (lit "message") with
                      | Some m => py_str repr_str m
                      | None => lit "Unknown CKAN error"
                      end))
       | Some v => Raise (AttributeError (json_type_name v) (lit "get"))
       end.
Proof.
  intros Ha Hs.
  rewrite (ckan_request_answered _ _ _ _ _ Ha).
  rewrite ckan_result_failure by (now rewrite Hs).
  split; [|reflexivity].
  intros r. destruct (dict_get d (lit "error")) as [[]|]; discriminate.
Qed.

(** C4.  When the decoded envelope has [success] true and a [result]
    field, [ckan_request] returns the value of that field and nothing
    else of the envelope. *)
Theorem ckan_request_returns_result (repr_str : pystr -> pystr)
    (http_get : pystr -> dict -> result response)
    (action : pystr) (params : option dict) (d : dict) (r : json) :
  answers http_get (CKAN_API_URL ++ lit "/" ++ action)
    (params_or_empty params) (JDict d) ->
  dict_get d (lit "success") = Some (JBool true) ->
  dict_get d (lit "result") = Some r ->
  ckan_request repr_str http_get action params = Ok r.
Proof.
  intros Ha Hs Hr.
  rewrite (ckan_request_answered _ _ _ _ _ Ha).
  unfold ckan_result. simpl. unfold dict_get_or. rewrite Hs. simpl.
  now rewrite Hr.
Qed.

(** C8.  An envelope without [success], or whose [success] has a false
    truth value, is treated as the same envelope with [success] set to
    [False]: [ckan_request] raises, the exception is the one raised for
    that envelope, and it is the [RuntimeError] of the failure branch
    whenever the [error] field is absent or an object. *)
Theorem ckan_request_falsy_success (repr_str : pystr -> pystr)
    (http_get : pystr -> dict -> result response)
    (action : pystr) (params : option dict) (d : dict) :
  answers http_get (CKAN_API_URL ++ lit "/" ++ action)
    (params_or_empty params) (JDict d) ->
  dict_get d (lit "success") = None
  \/ (exists v, dict_get d (lit "success") = Some v /\ truthy v = false) ->
  exists e,
    ckan_request repr_str http_get action params = Raise e
    /\ ckan_result repr_str (JDict (dict_set d (lit "success") (JBool false)))
       = Raise e
    /\ match dict_get d (lit "error") with
       | None | Some (JDict _) => exists text, e = RuntimeError text
       | Some _ => True
       end.
Proof.
  intros Ha Hs.
  rewrite (ckan_request_answered _ _ _ _ _ Ha).
  assert (Hd : truthy (match dict_get d (lit "success") with
                       | Some v => v
                       | None => JNull
                       end) = false).
  { destruct Hs as [-> | (v & -> & Hv)]; [reflexivity | exact Hv]. }
  rewrite (ckan_result_failure _ d Hd).
  rewrite ckan_result_failure
    by (rewrite dict_get_set, str_eqb_refl; reflexivity).
  rewrite dict_get_set.
  change (str_eqb (lit "success") (lit "error")) with false. cbv iota.
  destruct (dict_get d (lit "error")) as [[]|];
    eexists; (split; [reflexivity | split; [reflexivity |]]);
    first [exact I | eexists; reflexivity].
Qed.

(** ** The dataset formatter *)

Lemma str_items_strs (names : list pystr) :
  str_items (map JStr names) = Ok names.
Proof.
  induction names as [|s names IH]; simpl; [reflexivity|].
  now rewrite IH.
Qed.

Lemma py_join_strs (sep : pystr) (names : list pystr) :
  py_join sep (map JStr names) = Ok (join sep names).
Proof. unfold py_join. now rewrite str_items_strs. Qed.

Lemma nonempty_map {A B : Type} (f : A -> B) (l : list A) :
  nonempty (map f l) = nonempty l.
Proof. now destruct l. Qed.

Lemma list_of_strs (l : list json) :
  forallb is_str l = true -> exists names, l = map JStr names.
Proof.
  induction l as [|v l IH]; simpl; intros H.
  - now exists [].
  - apply andb_true_iff in H as [Hv Hl].
    destruct (IH Hl) as [names ->].
    destruct v; try discriminate. now exists (s :: names).
Qed.

Lemma label_labelled (k1 k2 : pystr) (g : json) :
  labelled k1 k2 g = true -> exists s, label k1 k2 g = Ok (JStr s).
Proof.
  destruct g; try discriminate. unfold label. simpl. unfold dict_get_or.
  destruct (dict_get entries k1) as [v|].
  - destruct v; try discriminate. intros _. now exists s.
  - destruct (dict_get entries k2) as [v|]; simpl.
    + destruct v; try discriminate. intros _. now exists s.
    + intros _. now exists (lit "").
Qed.

Lemma comprehension_labelled (k1 k2 : pystr) (l : list json) :
  forallb (labelled k1 k2) l = true ->
  exists names, comprehension (label k1 k2) l = Ok (map JStr names).
Proof.
  induction l as [|g l IH]; simpl; intros H.
  - now exists [].
  - apply andb_true_iff in H as [Hg Hl].
    destruct (label_labelled k1 k2 g Hg) as [s Hs].
    destruct (IH Hl) as [names Hn].
    exists (s :: names). now rewrite Hs, Hn.
Qed.

Lemma slice_notes (d : dict) (k : pystr) (n : nat) :
  if_present is_str_or_null (dict_get d k) = true ->
  py_slice_to (py_or (dict_get_or d k JNull) (JStr (lit ""))) n
  = Ok (JStr (firstn n (field_str d k))).
Proof.
  unfold dict_get_or, field_str.
  destruct (dict_get d k) as [v|]; simpl.
  - destruct v; try discriminate; intros _.
    + now destruct n.
    + destruct s; [now destruct n | reflexivity].
  - intros _. now destruct n.
Qed.

Lemma slice_modified (d : dict) (k : pystr) (n : nat) :
  if_present is_str (dict_get d k) = true ->
  py_slice_to (dict_get_or d k (JStr (lit ""))) n
  = Ok (JStr (firstn n (field_str d k))).
Proof.
  unfold dict_get_or, field_str.
  destruct (dict_get d k) as [v|]; simpl.
  - destruct v; try discriminate. reflexivity.
  - intros _. now destruct n.
Qed.

Lemma field_list_of_strs (d : dict) (k : pystr) :
  if_present (is_list_of is_str) (dict_get d k) = true ->
  exists names, dict_get_or d k (JList []) = JList (map JStr names).
Proof.
  unfold dict_get_or.
  destruct (dict_get d k) as [v|]; simpl.
  - destruct v; try discriminate. intros H.
    destruct (list_of_strs items H) as [names ->]. now exists names.
  - intros _. now exists [].
Qed.

Lemma field_list_of_labelled (d : dict) (k k1 k2 : pystr) :
  if_present (is_list_of (labelled k1 k2)) (dict_get d k) = true ->
  exists items names,
    dict_get_or d k (JList []) = JList items
    /\ comprehension (label k1 k2) items = Ok (map JStr names).
Proof.
  unfold dict_get_or.
  destruct (dict_get d k) as [v|]; simpl.
  - destruct v; try discriminate. intros H.
    destruct (comprehension_labelled k1 k2 items H) as [names Hn].
    now exists items, names.
  - intros _. now exists [], [].
Qed.

(** The lines of the summary of a well-formed record. *)
Lemma format_dataset_lines_wf (repr_str : pystr -> pystr) (d : dict) :
  wf_dataset d = true ->
  exists ui gitems groups titems tags,
    dict_get_or d (lit "updateInterval") (JList []) = JList (map JStr ui)
    /\ dict_get_or d (lit "groups") (JList []) = JList gitems
    /\ comprehension (label (lit "title") (lit "name")) gitems
       = Ok (map JStr groups)
    /\ dict_get_or d (lit "tags") (JList []) = JList titems
    /\ comprehension (label (lit "display_name") (lit "name")) titems
       = Ok (map JStr tags)
    /\ format_dataset_lines repr_str (JDict d)
       = Ok (summary_lines repr_str d ui groups tags).
Proof.
  unfold wf_dataset. intros H.
  apply andb_true_iff in H as [H Htags].
  apply andb_true_iff in H as [H Hgroups].
  apply andb_true_iff in H as [H Hupdate].
  apply andb_true_iff in H as [Hnotes Hmodified].
  destruct (field_list_of_strs d _ Hupdate) as [ui Hui].
  destruct (field_list_of_labelled d _ _ _ Hgroups)
    as (gitems & groups & Hg & Hgs).
  destruct (field_list_of_labelled d _ _ _ Htags)
    as (titems & tags & Ht & Hts).
  exists ui, gitems, groups, titems, tags.
  repeat (split; [assumption|]).
  unfold format_dataset_lines. cbn [py_get bind].
  rewrite (slice_notes d _ 300 Hnotes). cbn [bind].
  rewrite (slice_modified d _ 10 Hmodified). cbn [bind].
  rewrite Hui, Hg, Ht. cbn [py_iter bind].
  rewrite Hgs, Hts. cbn [bind].
  rewrite !nonempty_map.
  unfold py_join_iter. cbn [py_iter bind].
  rewrite firstn_map, !py_join_strs.
  unfold summary_lines, optional_line.
  replace (truthy (JList (map JStr ui))) with (nonempty ui)
    by (now destruct ui).
  replace (truthy (JStr (firstn 300 (field_str d (lit "notes")))))
    with (nonempty (field_str d (lit "notes")))
    by (now destruct (field_str d (lit "notes"))).
  destruct (nonempty ui), (nonempty groups), (nonempty tags),
    (nonempty (field_str d (lit "notes"))); reflexivity.
Qed.

Lemma if_present_restrict (p : json -> bool) (keep : pystr -> bool)
    (d : dict) (k : pystr) :
  if_present p (dict_get d k) = true ->
  if_present p (dict_get (restrict keep d) k) = true.
Proof.
  intros H. rewrite dict_get_restrict. now destruct (keep k).
Qed.

(** Taking fields away from a well-formed record leaves it well formed. *)
Lemma wf_dataset_restrict (keep : pystr -> bool) (d : dict) :
  wf_dataset d = true -> wf_dataset (restrict keep d) = true.
Proof.
  unfold wf_dataset. intros H.
  apply andb_true_iff in H as [H Htags].
  apply andb_true_iff in H as [H Hgroups].
  apply andb_true_iff in H as [H Hupdate].
  apply andb_true_iff in H as [Hnotes Hmodified].
  now rewrite !if_present_restrict.
Qed.

Lemma comprehension_length {A B : Type} (f : A -> result B) (l : list A)
    (bs : list B) :
  comprehension f l = Ok bs -> List.length bs = List.length l.
Proof.
  revert bs. induction l as [|a l IH]; simpl; intros bs H.
  - now inversion H.
  - destruct (f a); simpl in H; [|discriminate].
    destruct (comprehension f l) as [bs'|]; simpl in H; [|discriminate].
    inversion H. simpl. now rewrite (IH bs').
Qed.

Lemma in_optional_line (line : pystr) : In line (optional_line true line).
Proof. now left. Qed.

(** C6.  For a well-formed record, and for the record left when any
    subset of its fields is taken away, [format_dataset_summary] returns a
    summary and does not raise.  A record with only a [name] gives the
    placeholders [Unbekannt] for title, author and licence, 0 resources,
    an empty date and no line for update intervals, categories, tags or
    description; a record with only an [id] gives the same with an empty
    name.  When the record has tags, the tag line joins the labels of the
    first ten of them; when it has a non-empty description, the
    description line has its first 300 characters followed by three
    dots. *)
Theorem format_dataset_summary_tolerant (repr_str : pystr -> pystr) :
  (forall d keep, wf_dataset d = true ->
     exists s,
       format_dataset_summary repr_str (JDict (restrict keep d)) = Ok s)
  /\ (forall id,
        format_dataset_summary repr_str (JDict [(lit "name", JStr id)])
        = Ok (join [10%N]
                [ lit "### Unbekannt";
                  lit "- **ID**: `" ++ id ++ lit "`";
                  lit "- **Autor**: Unbekannt";
                  lit "- **Lizenz**: Unbekannt";
                  lit "- **Ressourcen**: 0";
                  lit "- **Letzte Änderung**: ";
                  lit "- **URL**: https://data.stadt-zuerich.ch/dataset/"
                    ++ id ]))
  /\ (forall v,
        format_dataset_summary repr_str (JDict [(lit "id", v)])
        = Ok (join [10%N]
                [ lit "### Unbekannt";
                  lit "- **ID**: ``";
                  lit "- **Autor**: Unbekannt";
                  lit "- **Lizenz**: Unbekannt";
                  lit "- **Ressourcen**: 0";
                  lit "- **Letzte Änderung**: ";
                  lit "- **URL**: https://data.stadt-zuerich.ch/dataset/" ]))
  /\ (forall d ts, wf_dataset d = true ->
        dict_get d (lit "tags") = Some (JList ts) -> ts <> [] ->
        exists names lines,
          comprehension (label (lit "display_name") (lit "name")) ts
          = Ok (map JStr names)
          /\ format_dataset_lines repr_str (JDict d) = Ok lines
          /\ format_dataset_summary repr_str (JDict d)
             = Ok (join [10%N] lines)
          /\ In (lit "- **Tags**: " ++ join (lit ", ") (firstn 10 names))
                lines)
  /\ (forall d s, wf_dataset d = true ->
        dict_get d (lit "notes") = Some (JStr s) -> s <> [] ->
        exists lines,
          format_dataset_lines repr_str (JDict d) = Ok lines
          /\ format_dataset_summary repr_str (JDict d)
             = Ok (join [10%N] lines)
          /\ In (lit "- **Beschreibung**: " ++ firstn 300 s ++ lit "...")
                lines).
Proof.
  split; [|split; [|split; [|split]]].
  - intros d keep H.
    destruct (format_dataset_lines_wf repr_str _ (wf_dataset_restrict keep d H))
      as (ui & gitems & groups & titems & tags & _ & _ & _ & _ & _ & Hl).
    unfold format_dataset_summary. rewrite Hl. simpl. eexists. reflexivity.
  - intros id. reflexivity.
  - intros v. reflexivity.
  - intros d ts H Hd Hts.
    destruct (format_dataset_lines_wf repr_str d H)
      as (ui & gitems & groups & titems & tags & _ & _ & _ & Ht & Hc & Hl).
    unfold dict_get_or in Ht. rewrite Hd in Ht. inversion Ht. subst titems.
    exists tags, (summary_lines repr_str d ui groups tags).
    repeat split; try assumption.
    + unfold format_dataset_summary. now rewrite Hl.
    + assert (Hn : nonempty tags = true).
      { apply comprehension_length in Hc. rewrite length_map in Hc.
        destruct tags; [|reflexivity].
        destruct ts; [contradiction | discriminate]. }
      unfold summary_lines. rewrite Hn.
      apply in_or_app. right. apply in_or_app. right. apply in_or_app. right.
      apply in_or_app. left. apply in_optional_line.
  - intros d s H Hd Hs.
    destruct (format_dataset_lines_wf repr_str d H)
      as (ui & gitems & groups & titems & tags & _ & _ & _ & _ & _ & Hl).
    exists (summary_lines repr_str d ui groups tags).
    repeat split; try assumption.
    + unfold format_dataset_summary. now rewrite Hl.
    + unfold summary_lines, field_str. rewrite Hd.
      replace (nonempty s) with true by (destruct s; [contradiction|reflexivity]).
      apply in_or_app. right. apply in_or_app. right. apply in_or_app. right.
      apply in_or_app. right. apply in_or_app. left. apply in_optional_line.
Qed.

(** * The functions at work *)

Lemma answers_constant (data : json) (url : pystr) (params : dict) :
  answers (constant_backend (ok_response data)) url params data.
Proof.
  exists (ok_response data).
  split; [reflexivity|]. split; [simpl; lia | reflexivity].
Defined.

Lemma paris_get_num_hits_spec_witness :
  attrib_get (attrib search_response) (lit "numHits") = Some (str_int 42)
  /\ (List.length (str_int 42) <= 4300)%nat
  /\ paris_get_num_hits search_response = Ok 42.
Proof.
  split; [vm_compute; reflexivity|]. split; [vm_compute; lia|].
  apply (proj2 (paris_get_num_hits_spec search_response) 42);
    [vm_compute; reflexivity | vm_compute; lia].
Defined.

Lemma paris_extract_text_spec_witness :
  text (mkElement (lit "Titel") [] (Some (lit "  Budget 2024 ")) [])
  = Some (lit "  Budget 2024 ")
  /\ lit "  Budget 2024 " <> []
  /\ paris_extract_text
       (Some (mkElement (lit "Titel") [] (Some (lit "  Budget 2024 ")) []))
       (lit "Ohne Titel")
     = lit "Budget 2024".
Proof.
  split; [reflexivity|]. split; [vm_compute; discriminate|].
  destruct (paris_extract_text_spec (lit "Ohne Titel")) as (_ & _ & _ & H).
  rewrite (H (mkElement (lit "Titel") [] (Some (lit "  Budget 2024 ")) [])
             (lit "  Budget 2024 "));
    [vm_compute; reflexivity | reflexivity | vm_compute; discriminate].
Defined.

Lemma paris_extract_text_whitespace_witness :
  text (mkElement (lit "Partei") [] (Some [32; 10; 9; 32]%N) [])
  = Some [32; 10; 9; 32]%N
  /\ forallb isspace [32; 10; 9; 32]%N = true
  /\ paris_extract_text
       (Some (mkElement (lit "Partei") [] (Some [32; 10; 9; 32]%N) []))
       (lit "?")
     = [].
Proof.
  split; [reflexivity|]. split; [vm_compute; reflexivity|].
  destruct (paris_extract_text_whitespace (lit "?")) as (H & _ & _).
  apply (H (mkElement (lit "Partei") [] (Some [32; 10; 9; 32]%N) [])
           [32; 10; 9; 32]%N);
    [reflexivity | discriminate | vm_compute; reflexivity].
Defined.

Lemma handle_api_error_classifies_witness :
  500 <> 404 /\ 500 <> 403 /\ 500 <> 429
  /\ handle_api_error plain_repr no_text (HTTPStatusError 500)
       (lit "Datensatzsuche")
     = lit "Fehler bei Datensatzsuche: HTTP-Fehler 500"
  /\ handle_api_error plain_repr no_text
       (RuntimeError (lit "CKAN API error: Nicht gefunden")) []
     = lit "Fehler: RuntimeError: CKAN API error: Nicht gefunden".
Proof.
  destruct (handle_api_error_classifies plain_repr no_text
              (lit "Datensatzsuche")) as (_ & _ & _ & _ & H & _).
  destruct (handle_api_error_classifies plain_repr no_text [])
    as (_ & _ & _ & _ & _ & _ & H').
  split; [lia|]. split; [lia|]. split; [lia|]. split.
  - rewrite (H 500); [vm_compute; reflexivity | lia | lia | lia].
  - rewrite (H' (RuntimeError (lit "CKAN API error: Nicht gefunden")));
      [vm_compute; reflexivity | discriminate | discriminate].
Defined.

Lemma wfs_get_features_request_witness :
  answers (constant_backend (ok_response feature_collection))
    (WFS_BASE_URL ++ lit "/" ++ lit "Schulanlagen")
    (wfs_params (lit "poi_kindergarten_view") 5 (lit "GeoJSON") None)
    feature_collection
  /\ wfs_get_features (constant_backend (ok_response feature_collection))
       (lit "Schulanlagen") (lit "poi_kindergarten_view") 5 (lit "GeoJSON")
       None
     = Ok feature_collection.
Proof.
  split; [apply answers_constant|].
  apply (proj2 (wfs_get_features_request (lit "Schulanlagen")
                  (lit "poi_kindergarten_view") 5 (lit "GeoJSON") None)).
  apply answers_constant.
Defined.

(** C7 fails as stated: an empty string given as filter is not passed
    on, the parameters are the six fixed ones. *)
Lemma wfs_params_empty_filter_dropped :
  dict_get (wfs_params (lit "poi_kindergarten_view") 50 (lit "GeoJSON")
              (Some []))
    (lit "CQL_FILTER")
  = None
  /\ dict_get (wfs_params (lit "poi_kindergarten_view") 50 (lit "GeoJSON")
                 (Some []))
       (lit "CQL_FILTER")
     <> Some (JStr [])
  /\ List.length (wfs_params (lit "poi_kindergarten_view") 50 (lit "GeoJSON")
                    (Some []))
     = 6%nat.
Proof.
  split; [vm_compute; reflexivity|].
  split; [vm_compute; discriminate | vm_compute; reflexivity].
Qed.

Lemma ckan_request_failure_envelope_witness :
  answers (constant_backend (ok_response (JDict failure_envelope)))
    (CKAN_API_URL ++ lit "/" ++ lit "package_show")
    (params_or_empty (Some [(lit "id", JStr (lit "gibt_es_nicht"))]))
    (JDict failure_envelope)
  /\ dict_get failure_envelope (lit "success") = Some (JBool false)
  /\ ckan_request plain_repr
       (constant_backend (ok_response (JDict failure_envelope)))
       (lit "package_show") (Some [(lit "id", JStr (lit "gibt_es_nicht"))])
     = Raise (RuntimeError (lit "CKAN API error: Nicht gefunden")).
Proof.
  split; [apply answers_constant|]. split; [vm_compute; reflexivity|].
  destruct (ckan_request_failure_envelope plain_repr
              (constant_backend (ok_response (JDict failure_envelope)))
              (lit "package_show")
              (Some [(lit "id", JStr (lit "gibt_es_nicht"))])
              failure_envelope) as [_ H];
    [apply answers_constant | vm_compute; reflexivity |].
  rewrite H. vm_compute. reflexivity.
Defined.

(** C1 fails as stated: for an envelope with [success] false and no
    [error], the text of the exception is [CKAN API error: Unknown CKAN
    error], in which [Unknown error] does not occur. *)
Lemma ckan_request_default_message :
  ckan_request plain_repr
    (constant_backend (ok_response (JDict bare_failure_envelope)))
    (lit "package_search") None
  = Raise (RuntimeError (lit "CKAN API error: Unknown CKAN error"))
  /\ contains (lit "CKAN API error: Unknown CKAN error") (lit "Unknown error")
     = false
  /\ ckan_request plain_repr
       (constant_backend (ok_response (JDict bare_failure_envelope)))
       (lit "package_search") None
     <> Raise (RuntimeError (lit "Unknown error")).
Proof.
  split; [vm_compute; reflexivity|].
  split; [vm_compute; reflexivity | vm_compute; discriminate].
Qed.

Lemma ckan_request_returns_result_witness :
  answers (constant_backend (ok_response (JDict success_envelope)))
    (CKAN_API_URL ++ lit "/" ++ lit "package_search")
    (params_or_empty (Some search_params)) (JDict success_envelope)
  /\ dict_get success_envelope (lit "success") = Some (JBool true)
  /\ dict_get success_envelope (lit "result") = Some search_result
  /\ ckan_request plain_repr
       (constant_backend (ok_response (JDict success_envelope)))
       (lit "package_search") (Some search_params)
     = Ok search_result.
Proof.
  split; [apply answers_constant|]. split; [vm_compute; reflexivity|].
  split; [vm_compute; reflexivity|].
  apply (ckan_request_returns_result plain_repr
           (constant_backend (ok_response (JDict success_envelope)))
           (lit "package_search") (Some search_params) success_envelope
           search_result);
    [apply answers_constant | vm_compute; reflexivity | vm_compute; reflexivity].
Defined.

Lemma ckan_request_falsy_success_witness :
  answers (constant_backend (ok_response (JDict envelope_without_success)))
    (CKAN_API_URL ++ lit "/" ++ lit "package_search")
    (params_or_empty None) (JDict envelope_without_success)
  /\ dict_get envelope_without_success (lit "success") = None
  /\ exists e,
       ckan_request plain_repr
         (constant_backend (ok_response (JDict envelope_without_success)))
         (lit "package_search") None
       = Raise e
       /\ ckan_result plain_repr
            (JDict (dict_set envelope_without_success (lit "success")
                      (JBool false)))
          = Raise e.
Proof.
  split; [apply answers_constant|]. split; [vm_compute; reflexivity|].
  destruct (ckan_request_falsy_success plain_repr
              (constant_backend (ok_response (JDict envelope_without_success)))
              (lit "package_search") None envelope_without_success)
    as (e & H1 & H2 & _);
    [apply answers_constant | left; vm_compute; reflexivity |].
  exists e. split; assumption.
Defined.

Lemma format_dataset_summary_tolerant_witness :
  wf_dataset sample_dataset = true
  /\ (exists s,
        format_dataset_summary plain_repr
          (JDict (restrict (fun k => str_eqb k (lit "name")) sample_dataset))
        = Ok s)
  /\ exists names lines,
       format_dataset_lines plain_repr (JDict sample_dataset) = Ok lines
       /\ In (lit "- **Tags**: " ++ join (lit ", ") (firstn 10 names)) lines.
Proof.
  destruct (format_dataset_summary_tolerant plain_repr)
    as (Hany & _ & _ & Htags & _).
  split; [vm_compute; reflexivity|]. split.
  - apply Hany. vm_compute. reflexivity.
  - destruct (Htags sample_dataset
                (map tag
                   [ lit "a"; lit "b"; lit "c"; lit "d"; lit "e"; lit "f";
                     lit "g"; lit "h"; lit "i"; lit "j"; lit "k"; lit "l" ]))
      as (names & lines & Hc & Hl & _ & Hin);
      [vm_compute; reflexivity | vm_compute; reflexivity
       | vm_compute; discriminate |].
    exists names, lines. split; assumption.
Defined.

(** The tolerance of the formatter is for fields that are absent: a
    modification date that is present and null cannot be sliced. *)
Lemma format_dataset_summary_null_date :
  format_dataset_summary plain_repr
    (JDict [ (lit "name", JStr (lit "ssd_schulferien"));
             (lit "metadata_modified", JNull) ])
  = Raise TypeError.
Proof. vm_compute. reflexivity. Qed.

(** * Further properties of the adapters *)

Lemma raise_for_status_error (r : response) :
  ~ (200 <= status_code r <= 299) ->
  raise_for_status r = Raise (HTTPStatusError (status_code r)).
Proof.
  intros H. unfold raise_for_status.
  destruct (200 <=? status_code r) eqn:E1; [|reflexivity].
  destruct (status_code r <=? 299) eqn:E2; [|reflexivity].
  apply Z.leb_le in E1, E2. elim H. lia.
Qed.

(** X1.  A response whose status is outside 200..299 makes every adapter
    raise [HTTPStatusError] with that status; the body of the response,
    envelope or not, is not looked at. *)
Theorem adapters_raise_on_status (repr_str : pystr -> pystr)
    (http_get : pystr -> dict -> result response)
    (fromstring_content : response -> result Element)
    (http_get_headers :
       pystr -> dict -> list (pystr * pystr) -> result response)
    (r : response) :
  ~ (200 <= status_code r <= 299) ->
  (forall action params,
     http_get (CKAN_API_URL ++ lit "/" ++ action) (params_or_empty params)
     = Ok r ->
     ckan_request repr_str http_get action params
     = Raise (HTTPStatusError (status_code r)))
  /\ (forall url params,
        http_get url (params_or_empty params) = Ok r ->
        http_get_json http_get url params
        = Raise (HTTPStatusError (status_code r)))
  /\ (forall service_name typename max_features output_format cql_filter,
        http_get (WFS_BASE_URL ++ lit "/" ++ service_name)
          (wfs_params typename max_features output_format cql_filter)
        = Ok r ->
        wfs_get_features http_get service_name typename max_features
          output_format cql_filter
        = Raise (HTTPStatusError (status_code r)))
  /\ (forall index cql_query start max_results,
        http_get (PARIS_API_URL ++ lit "/" ++ index ++ lit "/searchdetails")
          [ (lit "q", JStr cql_query);
            (lit "l", JStr (lit "de-CH"));
            (lit "s", JStr (str_int start));
            (lit "m", JStr (str_int max_results)) ]
        = Ok r ->
        paris_search http_get fromstring_content index cql_query start
          max_results
        = Raise (HTTPStatusError (status_code r)))
  /\ (forall query,
        http_get_headers SPARQL_URL [(lit "query", JStr query)]
          [ (lit "Accept", lit "application/json");
            (lit "User-Agent", USER_AGENT) ]
        = Ok r ->
        sparql_query http_get_headers query
        = Raise (HTTPStatusError (status_code r))).
Proof.
  intros Hs. pose proof (raise_for_status_error r Hs) as Hr.
  repeat split; intros.
  - unfold ckan_request. rewrite H. simpl. now rewrite Hr.
  - unfold http_get_json. rewrite H. simpl. now rewrite Hr.
  - unfold wfs_get_features. rewrite H. simpl. now rewrite Hr.
  - unfold paris_search. rewrite H. simpl. now rewrite Hr.
  - unfold sparql_query. rewrite H. simpl. now rewrite Hr.
Qed.

(** X2.  An exception of the transport, a timeout for instance, comes
    out of every adapter as it is. *)
Theorem adapters_propagate_transport_errors (repr_str : pystr -> pystr)
    (http_get : pystr -> dict -> result response)
    (fromstring_content : response -> result Element)
    (http_get_headers :
       pystr -> dict -> list (pystr * pystr) -> result response)
    (e : exn) :
  (forall action params,
     http_get (CKAN_API_URL ++ lit "/" ++ action) (params_or_empty params)
     = Raise e ->
     ckan_request repr_str http_get action params = Raise e)
  /\ (forall url params,
        http_get url (params_or_empty params) = Raise e ->
        http_get_json http_get url params = Raise e)
  /\ (forall service_name typename max_features output_format cql_filter,
        http_get (WFS_BASE_URL ++ lit "/" ++ service_name)
          (wfs_params typename max_features output_format cql_filter)
        = Raise e ->
        wfs_get_features http_get service_name typename max_features
          output_format cql_filter
        = Raise e)
  /\ (forall index cql_query start max_results,
        http_get (PARIS_API_URL ++ lit "/" ++ index ++ lit "/searchdetails")
          [ (lit "q", JStr cql_query);
            (lit "l", JStr (lit "de-CH"));
            (lit "s", JStr (str_int start));
            (lit "m", JStr (str_int max_results)) ]
        = Raise e ->
        paris_search http_get fromstring_content index cql_query start
          max_results
        = Raise e)
  /\ (forall query,
        http_get_headers SPARQL_URL [(lit "query", JStr query)]
          [ (lit "Accept", lit "application/json");
            (lit "User-Agent", USER_AGENT) ]
        = Raise e ->
        sparql_query http_get_headers query = Raise e).
Proof.
  repeat split; intros.
  - unfold ckan_request. now rewrite H.
  - unfold http_get_json. now rewrite H.
  - unfold wfs_get_features. now rewrite H.
  - unfold paris_search. now rewrite H.
  - unfold sparql_query. now rewrite H.
Qed.

(** X3.  An envelope that announces success but has no [result] makes
    [ckan_request] raise [KeyError] for that key. *)
Theorem ckan_request_missing_result (repr_str : pystr -> pystr)
    (http_get : pystr -> dict -> result response)
    (action : pystr) (params : option dict) (d : dict) (v : json) :
  answers http_get (CKAN_API_URL ++ lit "/" ++ action)
    (params_or_empty params) (JDict d) ->
  dict_get d (lit "success") = Some v -> truthy v = true ->
  dict_get d (lit "result") = None ->
  ckan_request repr_str http_get action params
  = Raise (KeyError (lit "result")).
Proof.
  intros Ha Hv Ht Hr.
  rewrite (ckan_request_answered _ _ _ _ _ Ha).
  unfold ckan_result. simpl. unfold dict_get_or. rewrite Hv, Ht. simpl.
  now rewrite Hr.
Qed.

(** X4.  A decoded body that is not an object (a list, a string, a
    number, null) makes [ckan_request] raise [AttributeError]: the body
    has no [get]. *)
Theorem ckan_request_body_not_object (repr_str : pystr -> pystr)
    (http_get : pystr -> dict -> result response)
    (action : pystr) (params : option dict) (data : json) :
  answers http_get (CKAN_API_URL ++ lit "/" ++ action)
    (params_or_empty params) data ->
  (forall d, data <> JDict d) ->
  ckan_request repr_str http_get action params
  = Raise (AttributeError (json_type_name data) (lit "get")).
Proof.
  intros Ha Hd.
  rewrite (ckan_request_answered _ _ _ _ _ Ha).
  destruct data; try reflexivity. now elim (Hd entries).
Qed.

(** X5.  Success is a matter of truth value: whatever [success] holds,
    if it is truthy (the string [false] is) the [result] is returned. *)
Theorem ckan_request_truthy_success (repr_str : pystr -> pystr)
    (http_get : pystr -> dict -> result response)
    (action : pystr) (params : option dict) (d : dict) (v r : json) :
  answers http_get (CKAN_API_URL ++ lit "/" ++ action)
    (params_or_empty params) (JDict d) ->
  dict_get d (lit "success") = Some v -> truthy v = true ->
  dict_get d (lit "result") = Some r ->
  ckan_request repr_str http_get action params = Ok r.
Proof.
  intros Ha Hv Ht Hr.
  rewrite (ckan_request_answered _ _ _ _ _ Ha).
  unfold ckan_result. simpl. unfold dict_get_or. rewrite Hv, Ht. simpl.
  now rewrite Hr.
Qed.

(** * Further properties of the formatters *)

(** X6.  [format_resource_info] never raises on an object, whatever its
    fields hold: each of name, format and URL is printed as it is when
    the field is there, and replaced by its placeholder when it is not.
    On anything but an object it raises [AttributeError]. *)
Theorem format_resource_info_total (repr_str : pystr -> pystr) :
  (forall d,
     format_resource_info repr_str (JDict d)
     = Ok (lit "  - **"
           ++ py_str repr_str
                (dict_get_or d (lit "name") (JStr (lit "Unbenannt")))
           ++ lit "** ("
           ++ py_str repr_str (dict_get_or d (lit "format") (JStr (lit "?")))
           ++ lit ") – "
           ++ py_str repr_str
                (dict_get_or d (lit "url") (JStr (lit "Keine URL")))))
  /\ format_resource_info repr_str (JDict [])
     = Ok (lit "  - **Unbenannt** (?) – Keine URL")
  /\ (forall v, (forall d, v <> JDict d) ->
        format_resource_info repr_str v
        = Raise (AttributeError (json_type_name v) (lit "get"))).
Proof.
  split; [|split].
  - intros d. unfold format_resource_info. cbn [py_get bind].
    reflexivity.
  - vm_compute. reflexivity.
  - intros v Hv. destruct v; try reflexivity. now elim (Hv entries).
Qed.

Lemma length_optional_line (b : bool) (line : pystr) :
  (List.length (optional_line b line) <= 1)%nat.
Proof. destruct b; simpl; lia. Qed.

(** X7.  The summary of a well-formed record has between 7 and 11
    lines; the first is the heading with the title and the last is the
    line of the URL, built from the name. *)
Theorem format_dataset_lines_shape (repr_str : pystr -> pystr) (d : dict) :
  wf_dataset d = true ->
  exists lines,
    format_dataset_lines repr_str (JDict d) = Ok lines
    /\ (7 <= List.length lines <= 11)%nat
    /\ hd [] lines
       = lit "### "
         ++ py_str repr_str
              (dict_get_or d (lit "title") (JStr (lit "Unbekannt")))
    /\ last lines []
       = lit "- **URL**: " ++ CKAN_BASE_URL ++ lit "/dataset/"
         ++ py_str repr_str (dict_get_or d (lit "name") (JStr (lit ""))).
Proof.
  intros H.
  destruct (format_dataset_lines_wf repr_str d H)
    as (ui & gitems & groups & titems & tags & _ & _ & _ & _ & _ & Hl).
  exists (summary_lines repr_str d ui groups tags).
  split; [exact Hl|]. unfold summary_lines. split; [|split].
  - rewrite !length_app. cbn [List.length].
    pose proof (length_optional_line (nonempty ui)
      (lit "- **Aktualisierung**: " ++ join (lit ", ") ui)).
    pose proof (length_optional_line (nonempty groups)
      (lit "- **Kategorien**: " ++ join (lit ", ") groups)).
    pose proof (length_optional_line (nonempty tags)
      (lit "- **Tags**: " ++ join (lit ", ") (firstn 10 tags))).
    pose proof (length_optional_line (nonempty (field_str d (lit "notes")))
      (lit "- **Beschreibung**: "
       ++ firstn 300 (field_str d (lit "notes")) ++ lit "...")).
    lia.
  - reflexivity.
  - rewrite !app_assoc. apply last_last.
Qed.

(** X8.  The placeholder [Unbekannt] stands for an absent field only: an
    author, a title or a licence that is present and null is printed as
    [None]. *)
Theorem format_dataset_summary_null_fields (repr_str : pystr -> pystr)
    (d : dict) :
  wf_dataset d = true ->
  exists lines,
    format_dataset_lines repr_str (JDict d) = Ok lines
    /\ (dict_get d (lit "title") = Some JNull -> In (lit "### None") lines)
    /\ (dict_get d (lit "author") = Some JNull ->
        In (lit "- **Autor**: None") lines)
    /\ (dict_get d (lit "license_title") = Some JNull ->
        In (lit "- **Lizenz**: None") lines)
    /\ (dict_get d (lit "author") = None ->
        In (lit "- **Autor**: Unbekannt") lines).
Proof.
  intros H.
  destruct (format_dataset_lines_wf repr_str d H)
    as (ui & gitems & groups & titems & tags & _ & _ & _ & _ & _ & Hl).
  exists (summary_lines repr_str d ui groups tags).
  split; [exact Hl|]. unfold summary_lines, dict_get_or.
  repeat split; intros E; rewrite E; apply in_or_app; left; simpl.
  - left. vm_compute. reflexivity.
  - right. right. left. vm_compute. reflexivity.
  - right. right. right. left. vm_compute. reflexivity.
  - right. right. left. vm_compute. reflexivity.
Qed.

(** X9.  A modification date that is present but neither a string nor a
    list cannot be cut to ten characters: the formatter raises
    [TypeError], where an absent date would have given an empty one. *)
Theorem format_dataset_summary_bad_date (repr_str : pystr -> pystr)
    (d : dict) (v : json) :
  if_present is_str_or_null (dict_get d (lit "notes")) = true ->
  dict_get d (lit "metadata_modified") = Some v ->
  match v with JStr _ | JList _ => False | _ => True end ->
  format_dataset_summary repr_str (JDict d) = Raise TypeError.
Proof.
  intros Hn Hm Hv.
  unfold format_dataset_summary, format_dataset_lines. cbn [py_get bind].
  rewrite (slice_notes d _ 300 Hn). cbn [bind].
  unfold dict_get_or at 1. rewrite Hm.
  destruct v; try contradiction; reflexivity.
Qed.

(** X10.  The date line of the summary of a well-formed record shows the
    first ten characters of [metadata_modified], the day of an ISO time
    stamp. *)
Theorem format_dataset_summary_date (repr_str : pystr -> pystr)
    (d : dict) (s : pystr) :
  wf_dataset d = true ->
  dict_get d (lit "metadata_modified") = Some (JStr s) ->
  exists lines,
    format_dataset_lines repr_str (JDict d) = Ok lines
    /\ In (lit "- **Letzte Änderung**: " ++ firstn 10 s) lines.
Proof.
  intros H Hm.
  destruct (format_dataset_lines_wf repr_str d H)
    as (ui & gitems & groups & titems & tags & _ & _ & _ & _ & _ & Hl).
  exists (summary_lines repr_str d ui groups tags).
  split; [exact Hl|]. unfold summary_lines, field_str. rewrite Hm.
  apply in_or_app. left. simpl. do 5 right. now left.
Qed.

(** * Further properties of the classifier and of the XML helpers *)

Lemma uint_codes_injective (d1 d2 : Decimal.uint) :
  uint_codes d1 = uint_codes d2 -> d1 = d2.
Proof.
  revert d2. induction d1; intros d2 H; destruct d2; simpl in H;
    try discriminate; try reflexivity;
    inversion H; f_equal; auto.
Qed.

Lemma to_uint_injective (n1 n2 : N) : N.to_uint n1 = N.to_uint n2 -> n1 = n2.
Proof.
  intros H.
  rewrite <- (DecimalN.Unsigned.of_to n1), <- (DecimalN.Unsigned.of_to n2).
  now rewrite H.
Qed.

Lemma uint_codes_no_minus (n : N) (t : pystr) :
  uint_codes (N.to_uint n) <> 45%N :: t.
Proof.
  intros H. pose proof (uint_codes_digits (N.to_uint n)) as Hd.
  rewrite H in Hd. discriminate.
Qed.

(** [str] of an integer determines the integer. *)
Lemma str_int_injective (z1 z2 : Z) : str_int z1 = str_int z2 -> z1 = z2.
Proof.
  unfold str_int.
  destruct (Z.ltb_spec z1 0) as [L1|L1], (Z.ltb_spec z2 0) as [L2|L2];
    simpl; intros H.
  - injection H as H. apply uint_codes_injective, to_uint_injective in H.
    lia.
  - symmetry in H. now apply uint_codes_no_minus in H.
  - now apply uint_codes_no_minus in H.
  - apply uint_codes_injective, to_uint_injective in H. lia.
Qed.

(** X11.  The classifier keeps the status code apart: two HTTP status
    failures other than 404, 403 and 429 get the same message, under the
    same context, only if they have the same status. *)
Theorem handle_api_error_keeps_status (repr_str : pystr -> pystr)
    (raised_text : exn -> pystr) (context : pystr) (s1 s2 : Z) :
  s1 <> 404 -> s1 <> 403 -> s1 <> 429 ->
  s2 <> 404 -> s2 <> 403 -> s2 <> 429 ->
  handle_api_error repr_str raised_text (HTTPStatusError s1) context
  = handle_api_error repr_str raised_text (HTTPStatusError s2) context ->
  s1 = s2.
Proof.
  intros A1 A2 A3 B1 B2 B3. unfold handle_api_error.
  apply Z.eqb_neq in A1, A2, A3, B1, B2, B3.
  rewrite A1, A2, A3, B1, B2, B3. intros H.
  apply app_inv_head in H. apply app_inv_head in H.
  now apply str_int_injective.
Qed.

(** X12.  Every message of the classifier begins with the word
    [Fehler], whatever the failure and the context. *)
Theorem handle_api_error_starts_with_fehler (repr_str : pystr -> pystr)
    (raised_text : exn -> pystr) (e : exn) (context : pystr) :
  startswith (handle_api_error repr_str raised_text e context) (lit "Fehler")
  = true.
Proof.
  assert (H : forall rest,
             startswith (error_prefix context ++ rest) (lit "Fehler") = true).
  { intros rest. unfold error_prefix. destruct context; reflexivity. }
  unfold handle_api_error.
  destruct e; try apply H.
  destruct (status_code0 =? 404); [apply H|].
  destruct (status_code0 =? 403); [apply H|].
  destruct (status_code0 =? 429); apply H.
Qed.

Lemma lstrip_head (s t : pystr) (c : N) :
  lstrip s = c :: t -> isspace c = false.
Proof.
  induction s as [|a s IH]; simpl; [discriminate|].
  destruct (isspace a) eqn:E; [exact IH|].
  intros H. inversion H. now subst.
Qed.

Lemma lstrip_fixed (s : pystr) :
  match s with [] => True | c :: _ => isspace c = false end ->
  lstrip s = s.
Proof. destruct s as [|c s]; simpl; [reflexivity|]. now intros ->. Qed.

Lemma lstrip_keeps_last (x : pystr) (a : N) :
  isspace a = false -> exists w, lstrip (x ++ [a]) = w ++ [a].
Proof.
  intros Ha. induction x as [|b x IH]; simpl.
  - rewrite Ha. now exists [].
  - destruct (isspace b); [exact IH|]. now exists (b :: x).
Qed.

Lemma strip_first (s t : pystr) (c : N) :
  strip s = c :: t -> isspace c = false.
Proof.
  unfold strip. destruct (lstrip s) as [|a u] eqn:E.
  - simpl. discriminate.
  - pose proof (lstrip_head s u a E) as Ha. simpl rev.
    destruct (lstrip_keeps_last (rev u) a Ha) as [w Hw]. rewrite Hw.
    rewrite rev_app_distr. simpl. intros H. inversion H. now subst.
Qed.

Lemma strip_last (s init : pystr) (c : N) :
  strip s = init ++ [c] -> isspace c = false.
Proof.
  unfold strip. intros H.
  apply (f_equal (@rev N)) in H.
  rewrite rev_involutive, rev_app_distr in H. simpl in H.
  now apply lstrip_head in H.
Qed.

Lemma strip_idempotent (s : pystr) : strip (strip s) = strip s.
Proof.
  destruct (strip s) as [|c t] eqn:E; [reflexivity|].
  pose proof (strip_first s t c E) as Hc.
  unfold strip at 1.
  rewrite (lstrip_fixed (c :: t)) by exact Hc.
  rewrite lstrip_fixed; [apply rev_involutive|].
  destruct (rev (c :: t)) as [|a u] eqn:R; [exact I|].
  apply (f_equal (@rev N)) in R. rewrite rev_involutive in R. simpl in R.
  rewrite <- E in R. now apply strip_last in R.
Qed.

(** X13.  The text [paris_extract_text] takes from an element with a
    non-empty text has no white space left at either end, and extracting
    is stable: stripping the result again changes nothing. *)
Theorem paris_extract_text_trimmed (e : Element) (t default : pystr) :
  text e = Some t -> t <> [] ->
  strip (paris_extract_text (Some e) default)
  = paris_extract_text (Some e) default
  /\ (forall c rest, paris_extract_text (Some e) default = c :: rest ->
        isspace c = false)
  /\ (forall c init, paris_extract_text (Some e) default = init ++ [c] ->
        isspace c = false).
Proof.
  intros Ht Hne.
  assert (H : paris_extract_text (Some e) default = strip t).
  { simpl. rewrite Ht. destruct t; [contradiction|reflexivity]. }
  rewrite H. split; [apply strip_idempotent|]. split.
  - intros c rest. apply strip_first.
  - intros c init. apply strip_last.
Qed.

(** * Properties of the dataset search *)

Lemma search_api_params_nonempty (params : SearchDatasetsInput) :
  params_or_empty (Some (search_api_params params))
  = search_api_params params.
Proof.
  unfold search_api_params.
  destruct (sort params) as [[|c s]|], (filter_group params) as [[|c' g]|];
    vm_compute; reflexivity.
Qed.

(** X14.  The search sends [q], [rows] and [start] always, [sort] only
    for a non-empty sort order and [fq], with the group behind
    [groups:], only for a non-empty group; and the outcome of the tool
    depends on the network through the answer to this one request
    only. *)
Theorem zurich_search_datasets_request (repr_str : pystr -> pystr)
    (raised_text : exn -> pystr) (float_gt : pystr -> Z -> bool)
    (params : SearchDatasetsInput) :
  search_api_params params
  = [ (lit "q", JStr (query params));
      (lit "rows", JInt (rows params));
      (lit "start", JInt (offset params)) ]
    ++ match sort params with
       | Some (c :: s) => [(lit "sort", JStr (c :: s))]
       | _ => []
       end
    ++ match filter_group params with
       | Some (c :: g) => [(lit "fq", JStr (lit "groups:" ++ c :: g))]
       | _ => []
       end
  /\ forall h1 h2 : pystr -> dict -> result response,
       h1 (CKAN_API_URL ++ lit "/" ++ lit "package_search")
          (search_api_params params)
       = h2 (CKAN_API_URL ++ lit "/" ++ lit "package_search")
            (search_api_params params) ->
       zurich_search_datasets repr_str raised_text h1 float_gt params
       = zurich_search_datasets repr_str raised_text h2 float_gt params.
Proof.
  split.
  - unfold search_api_params.
    destruct (sort params) as [[|c s]|], (filter_group params) as [[|c' g]|];
      vm_compute; reflexivity.
  - intros h1 h2 H.
    unfold zurich_search_datasets, search_datasets_body, ckan_request.
    rewrite search_api_params_nonempty. now rewrite H.
Qed.

Lemma search_body_error (repr_str : pystr -> pystr)
    (raised_text : exn -> pystr)
    (http_get : pystr -> dict -> result response)
    (float_gt : pystr -> Z -> bool) (params : SearchDatasetsInput)
    (e : exn) :
  ckan_request repr_str http_get (lit "package_search")
    (Some (search_api_params params)) = Raise e ->
  zurich_search_datasets repr_str raised_text http_get float_gt params
  = handle_api_error repr_str raised_text e (lit "Datensatzsuche").
Proof.
  intros H. unfold zurich_search_datasets, search_datasets_body.
  now rewrite H.
Qed.

(** X15.  When the catalog answers the search with a status outside
    200..299, the tool returns the message of the classifier for that
    status under the label [Datensatzsuche]: the fixed texts for 404, 403
    and 429, the status itself otherwise. *)
Theorem zurich_search_datasets_http_error (repr_str : pystr -> pystr)
    (raised_text : exn -> pystr)
    (http_get : pystr -> dict -> result response)
    (float_gt : pystr -> Z -> bool) (params : SearchDatasetsInput)
    (r : response) :
  http_get (CKAN_API_URL ++ lit "/" ++ lit "package_search")
    (search_api_params params) = Ok r ->
  ~ (200 <= status_code r <= 299) ->
  zurich_search_datasets repr_str raised_text http_get float_gt params
  = if status_code r =? 404
    then lit "Fehler bei Datensatzsuche: Ressource nicht gefunden. Bitte ID/Name prüfen."
    else if status_code r =? 403
    then lit "Fehler bei Datensatzsuche: Zugriff verweigert."
    else if status_code r =? 429
    then lit "Fehler bei Datensatzsuche: Zu viele Anfragen. Bitte warten."
    else lit "Fehler bei Datensatzsuche: HTTP-Fehler "
         ++ str_int (status_code r).
Proof.
  intros H Hs.
  rewrite (search_body_error _ _ _ _ _ (HTTPStatusError (status_code r))).
  - unfold handle_api_error.
    destruct (status_code r =? 404); [vm_compute; reflexivity|].
    destruct (status_code r =? 403); [vm_compute; reflexivity|].
    destruct (status_code r =? 429); [vm_compute; reflexivity|].
    reflexivity.
  - unfold ckan_request. rewrite search_api_params_nonempty, H. simpl.
    now rewrite (raise_for_status_error r Hs).
Qed.

Lemma search_answered (repr_str : pystr -> pystr)
    (http_get : pystr -> dict -> result response)
    (params : SearchDatasetsInput) (data : json) :
  answers http_get (CKAN_API_URL ++ lit "/" ++ lit "package_search")
    (search_api_params params) data ->
  ckan_request repr_str http_get (lit "package_search")
    (Some (search_api_params params))
  = ckan_result repr_str data.
Proof.
  intros H. apply ckan_request_answered.
  now rewrite search_api_params_nonempty.
Qed.

Lemma ckan_result_success (repr_str : pystr -> pystr) (d : dict)
    (v r : json) :
  dict_get d (lit "success") = Some v -> truthy v = true ->
  dict_get d (lit "result") = Some r ->
  ckan_result repr_str (JDict d) = Ok r.
Proof.
  intros Hv Ht Hr. unfold ckan_result. simpl. unfold dict_get_or.
  rewrite Hv, Ht. simpl. now rewrite Hr.
Qed.

(** X16.  When the catalog reports failure in its envelope, with a
    message, the tool returns that message behind the label, the class
    name [RuntimeError] and the words [CKAN API error]. *)
Theorem zurich_search_datasets_envelope_error (repr_str : pystr -> pystr)
    (raised_text : exn -> pystr)
    (http_get : pystr -> dict -> result response)
    (float_gt : pystr -> Z -> bool) (params : SearchDatasetsInput)
    (d err : dict) (message : pystr) :
  answers http_get (CKAN_API_URL ++ lit "/" ++ lit "package_search")
    (search_api_params params) (JDict d) ->
  dict_get d (lit "success") = Some (JBool false) ->
  dict_get d (lit "error") = Some (JDict err) ->
  dict_get err (lit "message") = Some (JStr message) ->
  zurich_search_datasets repr_str raised_text http_get float_gt params
  = lit "Fehler bei Datensatzsuche: RuntimeError: CKAN API error: "
    ++ message.
Proof.
  intros Ha Hs He Hm.
  rewrite (search_body_error _ _ _ _ _
             (RuntimeError (lit "CKAN API error: " ++ message))).
  - vm_compute. reflexivity.
  - rewrite (search_answered _ _ _ _ Ha).
    rewrite ckan_result_failure by (now rewrite Hs).
    now rewrite He, Hm.
Qed.

(** X17.  A search whose result has no datasets (an empty list, or any
    other falsy [results]) gives the one line saying that nothing was
    found for the query, whatever [count] holds. *)
Theorem zurich_search_datasets_nothing_found (repr_str : pystr -> pystr)
    (raised_text : exn -> pystr)
    (http_get : pystr -> dict -> result response)
    (float_gt : pystr -> Z -> bool) (params : SearchDatasetsInput)
    (d res : dict) (total datasets : json) :
  answers http_get (CKAN_API_URL ++ lit "/" ++ lit "package_search")
    (search_api_params params) (JDict d) ->
  dict_get d (lit "success") = Some (JBool true) ->
  dict_get d (lit "result") = Some (JDict res) ->
  dict_get res (lit "count") = Some total ->
  dict_get res (lit "results") = Some datasets ->
  truthy datasets = false ->
  zurich_search_datasets repr_str raised_text http_get float_gt params
  = lit "Keine Datensätze gefunden für '" ++ query params ++ lit "'.".
Proof.
  intros Ha Hs Hr Hc Hd Ht.
  unfold zurich_search_datasets, search_datasets_body.
  rewrite (search_answered _ _ _ _ Ha).
  rewrite (ckan_result_success _ d _ _ Hs eq_refl Hr).
  cbn [bind py_getitem]. rewrite Hc, Hd. cbn [bind]. now rewrite Ht.
Qed.

Lemma comprehension_wf_datasets (repr_str : pystr -> pystr)
    (ds : list json) :
  forallb is_wf_dataset ds = true ->
  exists summaries,
    comprehension (format_dataset_summary repr_str) ds = Ok summaries
    /\ List.length summaries = List.length ds.
Proof.
  induction ds as [|v ds IH]; simpl; intros H.
  - now exists [].
  - apply andb_true_iff in H as [Hv Hds].
    destruct v; try discriminate. simpl in Hv.
    destruct (format_dataset_lines_wf repr_str entries Hv)
      as (ui & gi & gs & ti & ts & _ & _ & _ & _ & _ & Hl).
    destruct (IH Hds) as (summaries & Hc & Hlen).
    exists (join [10%N] (summary_lines repr_str entries ui gs ts) :: summaries).
    unfold format_dataset_summary at 1. rewrite Hl. cbn [bind].
    rewrite Hc. cbn [bind]. split; [reflexivity|]. simpl. now rewrite Hlen.
Qed.

(** X18.  For a result with an integer [count] and a non-empty list of
    well-formed datasets, the output is the two heading lines, then each
    summary followed by an empty line, in the order of the result, and
    at the end the hint with the next offset exactly when [count] is
    larger than the offset plus the number of datasets shown. *)
Theorem zurich_search_datasets_page (repr_str : pystr -> pystr)
    (raised_text : exn -> pystr)
    (http_get : pystr -> dict -> result response)
    (float_gt : pystr -> Z -> bool) (params : SearchDatasetsInput)
    (d res : dict) (total : Z) (ds : list json) :
  answers http_get (CKAN_API_URL ++ lit "/" ++ lit "package_search")
    (search_api_params params) (JDict d) ->
  dict_get d (lit "success") = Some (JBool true) ->
  dict_get d (lit "result") = Some (JDict res) ->
  dict_get res (lit "count") = Some (JInt total) ->
  dict_get res (lit "results") = Some (JList ds) ->
  ds <> [] ->
  forallb is_wf_dataset ds = true ->
  exists summaries,
    comprehension (format_dataset_summary repr_str) ds = Ok summaries
    /\ List.length summaries = List.length ds
    /\ zurich_search_datasets repr_str raised_text http_get float_gt params
       = join [10%N]
           ([ lit "## Suchergebnis: " ++ str_int total
                ++ lit " Datensätze für '" ++ query params ++ lit "'";
              lit "Zeige " ++ str_int (Z.of_nat (List.length ds))
                ++ lit " von " ++ str_int total
                ++ lit " (Offset: " ++ str_int (offset params) ++ lit ")"
                ++ [10%N] ]
            ++ flat_map (fun s => [s; []]) summaries
            ++ (if offset params + Z.of_nat (List.length ds) <? total
                then [ lit "*→ Weitere Ergebnisse mit offset="
                       ++ str_int (offset params + Z.of_nat (List.length ds))
                       ++ lit "*" ]
                else [])).
Proof.
  intros Ha Hs Hr Hc Hd Hne Hwf.
  destruct (comprehension_wf_datasets repr_str ds Hwf)
    as (summaries & Hsum & Hlen).
  exists summaries. split; [exact Hsum|]. split; [exact Hlen|].
  unfold zurich_search_datasets, search_datasets_body.
  rewrite (search_answered _ _ _ _ Ha).
  rewrite (ckan_result_success _ d _ _ Hs eq_refl Hr).
  cbn [bind py_getitem]. rewrite Hc, Hd. cbn [bind].
  replace (truthy (JList ds)) with true
    by (destruct ds; [contradiction|reflexivity]).
  cbn [negb py_len py_iter bind]. rewrite Hsum. cbn [bind py_gt_int py_str py_repr].
  destruct (offset params + Z.of_nat (List.length ds) <? total).
  - now rewrite <- app_assoc.
  - now rewrite app_nil_r.
Qed.

(** * Properties of the SPARQL tool *)

Lemma bind_ok {A B : Type} (r : result A) (k : A -> result B) (b : B) :
  bind r k = Ok b -> exists a, r = Ok a /\ k a = Ok b.
Proof.
  destruct r as [a|e]; simpl; intros H; [|discriminate]. now exists a.
Qed.

(** X19.  A query that, stripped and in upper case, begins with neither
    [SELECT] nor [PREFIX] is refused with a fixed sentence, whatever the
    network would answer; any other query is sent as it was given, in one
    request, on whose answer alone the outcome depends. *)
Theorem zurich_sparql_guard (repr_str : pystr -> pystr)
    (raised_text : exn -> pystr) (str_upper : pystr -> pystr)
    (query : pystr) :
  (startswith (str_upper (strip query)) (lit "SELECT") = false ->
   startswith (str_upper (strip query)) (lit "PREFIX") = false ->
   forall h : pystr -> dict -> list (pystr * pystr) -> result response,
     zurich_sparql repr_str raised_text h str_upper query
     = lit "Nur SELECT-Abfragen sind erlaubt.")
  /\ (forall h1 h2 : pystr -> dict -> list (pystr * pystr) -> result response,
        h1 SPARQL_URL [(lit "query", JStr query)]
           [ (lit "Accept", lit "application/json");
             (lit "User-Agent", USER_AGENT) ]
        = h2 SPARQL_URL [(lit "query", JStr query)]
             [ (lit "Accept", lit "application/json");
               (lit "User-Agent", USER_AGENT) ] ->
        zurich_sparql repr_str raised_text h1 str_upper query
        = zurich_sparql repr_str raised_text h2 str_upper query).
Proof.
  split.
  - intros H1 H2 h. unfold zurich_sparql, sparql_body.
    now rewrite H1, H2.
  - intros h1 h2 H. unfold zurich_sparql, sparql_body, sparql_query.
    now rewrite H.
Qed.

(** X20.  An accepted query whose answer has no bindings (an empty list,
    or no [results] or no [bindings] at all) gives the sentence saying
    that the query had no results, not an error. *)
Theorem zurich_sparql_no_rows (repr_str : pystr -> pystr)
    (raised_text : exn -> pystr)
    (http_get_headers :
       pystr -> dict -> list (pystr * pystr) -> result response)
    (str_upper : pystr -> pystr) (query : pystr) (d head results : dict) :
  startswith (str_upper (strip query)) (lit "SELECT") = true
  \/ startswith (str_upper (strip query)) (lit "PREFIX") = true ->
  sparql_query http_get_headers query = Ok (JDict d) ->
  dict_get_or d (lit "head") (JDict []) = JDict head ->
  dict_get_or d (lit "results") (JDict []) = JDict results ->
  truthy (dict_get_or results (lit "bindings") (JList [])) = false ->
  zurich_sparql repr_str raised_text http_get_headers str_upper query
  = lit "SPARQL-Abfrage lieferte keine Ergebnisse.".
Proof.
  intros Hq Hs Hh Hr Hb. unfold zurich_sparql, sparql_body.
  replace (negb (startswith (str_upper (strip query)) (lit "SELECT"))
           && negb (startswith (str_upper (strip query)) (lit "PREFIX")))
    with false by (destruct Hq as [-> | ->]; [reflexivity|];
                   now rewrite andb_false_r).
  rewrite Hs. cbn [bind py_get]. rewrite Hh. cbn [bind py_get].
  rewrite Hr. cbn [bind py_get]. now rewrite Hb.
Qed.

Lemma shorten_bound (value : json) (s : pystr) :
  (n <- py_len value ;; if 100 <? n then py_shorten value else Ok value)%py
  = Ok (JStr s) ->
  (List.length s <= 100)%nat.
Proof.
  destruct value; cbn [py_len py_shorten bind]; try discriminate.
  - destruct (Z.ltb_spec 100 (Z.of_nat (List.length s0))) as [L|L];
      intros H.
    + assert (E : s = firstn 97 s0 ++ lit "...") by congruence.
      rewrite E, length_app, length_firstn.
      change (List.length (lit "...")) with 3%nat. lia.
    + assert (E : s = s0) by congruence. rewrite E. lia.
  - destruct (100 <? Z.of_nat (List.length items)); discriminate.
  - destruct (100 <? Z.of_nat (List.length entries)); discriminate.
Qed.

(** X21.  A cell of the table is never longer than 100 characters.  A
    string value of at most 100 characters whose type is not [uri] is
    shown as it is; a longer one is cut to its first 97 characters and
    three dots. *)
Theorem sparql_cell_bounded (binding var : json) :
  (forall s, sparql_cell binding var = Ok (JStr s) ->
     (List.length s <= 100)%nat)
  /\ (forall d k cell v,
        binding = JDict d -> var = JStr k ->
        dict_get d k = Some (JDict cell) ->
        dict_get cell (lit "value") = Some (JStr v) ->
        json_eq_str (dict_get_or cell (lit "type") JNull) (lit "uri") = false ->
        sparql_cell binding var
        = Ok (JStr (if 100 <? Z.of_nat (List.length v)
                    then firstn 97 v ++ lit "..."
                    else v))).
Proof.
  split.
  - intros s H. unfold sparql_cell in H.
    apply bind_ok in H as (cell & _ & H).
    apply bind_ok in H as (value & _ & H).
    apply bind_ok in H as (type & _ & H).
    apply bind_ok in H as (value' & _ & H).
    now apply shorten_bound in H.
  - intros d k cell v -> -> Hc Hv Ht. unfold sparql_cell.
    assert (Hcell : dict_get_or d k (JDict []) = JDict cell)
      by (unfold dict_get_or; now rewrite Hc).
    assert (Hvalue : dict_get_or cell (lit "value") (JStr (lit "")) = JStr v)
      by (unfold dict_get_or; now rewrite Hv).
    cbn [py_get_key]. rewrite Hcell. cbn [py_get bind].
    rewrite Hvalue, Ht. cbn [py_len bind].
    now destruct (100 <? Z.of_nat (List.length v)).
Qed.


(** * The other functions at work *)

Lemma adapters_raise_on_status_witness :
  ~ (200 <= status_code not_found_response <= 299)
  /\ constant_backend not_found_response
       (CKAN_API_URL ++ lit "/" ++ lit "package_show")
       (params_or_empty (Some [(lit "id", JStr (lit "gibt_es_nicht"))]))
     = Ok not_found_response
  /\ ckan_request plain_repr (constant_backend not_found_response)
       (lit "package_show") (Some [(lit "id", JStr (lit "gibt_es_nicht"))])
     = Raise (HTTPStatusError 404).
Proof.
  assert (H : ~ (200 <= status_code not_found_response <= 299))
    by (simpl; lia).
  split; [exact H|]. split; [reflexivity|].
  apply (proj1 (adapters_raise_on_status plain_repr
                  (constant_backend not_found_response) no_parser
                  (constant_backend_headers not_found_response)
                  not_found_response H)).
  reflexivity.
Defined.

Lemma adapters_propagate_transport_errors_witness :
  failing_backend read_timeout (WFS_BASE_URL ++ lit "/" ++ lit "Schulanlagen")
    (wfs_params (lit "poi_kindergarten_view") 5 (lit "GeoJSON") None)
  = Raise read_timeout
  /\ wfs_get_features (failing_backend read_timeout) (lit "Schulanlagen")
       (lit "poi_kindergarten_view") 5 (lit "GeoJSON") None
     = Raise read_timeout.
Proof.
  split; [reflexivity|].
  destruct (adapters_propagate_transport_errors plain_repr
              (failing_backend read_timeout) no_parser
              (failing_backend_headers read_timeout) read_timeout)
    as (_ & _ & H & _).
  apply H. reflexivity.
Defined.

Lemma ckan_request_missing_result_witness :
  answers (constant_backend (ok_response (JDict envelope_without_result)))
    (CKAN_API_URL ++ lit "/" ++ lit "package_search")
    (params_or_empty None) (JDict envelope_without_result)
  /\ dict_get envelope_without_result (lit "success") = Some (JBool true)
  /\ truthy (JBool true) = true
  /\ dict_get envelope_without_result (lit "result") = None
  /\ ckan_request plain_repr
       (constant_backend (ok_response (JDict envelope_without_result)))
       (lit "package_search") None
     = Raise (KeyError (lit "result")).
Proof.
  split; [apply answers_constant|]. split; [vm_compute; reflexivity|].
  split; [reflexivity|]. split; [vm_compute; reflexivity|].
  apply (ckan_request_missing_result plain_repr
           (constant_backend (ok_response (JDict envelope_without_result)))
           (lit "package_search") None envelope_without_result (JBool true));
    [apply answers_constant | vm_compute; reflexivity | reflexivity
     | vm_compute; reflexivity].
Defined.

Lemma ckan_request_body_not_object_witness :
  answers (constant_backend (ok_response (JList [])))
    (CKAN_API_URL ++ lit "/" ++ lit "package_list")
    (params_or_empty None) (JList [])
  /\ (forall d, JList [] <> JDict d)
  /\ ckan_request plain_repr (constant_backend (ok_response (JList [])))
       (lit "package_list") None
     = Raise (AttributeError (lit "list") (lit "get")).
Proof.
  split; [apply answers_constant|]. split; [discriminate|].
  apply (ckan_request_body_not_object plain_repr
           (constant_backend (ok_response (JList [])))
           (lit "package_list") None (JList []));
    [apply answers_constant | discriminate].
Defined.

Lemma ckan_request_truthy_success_witness :
  answers (constant_backend (ok_response (JDict envelope_with_text_success)))
    (CKAN_API_URL ++ lit "/" ++ lit "package_search")
    (params_or_empty None) (JDict envelope_with_text_success)
  /\ dict_get envelope_with_text_success (lit "success")
     = Some (JStr (lit "false"))
  /\ truthy (JStr (lit "false")) = true
  /\ dict_get envelope_with_text_success (lit "result") = Some (JInt 7)
  /\ ckan_request plain_repr
       (constant_backend (ok_response (JDict envelope_with_text_success)))
       (lit "package_search") None
     = Ok (JInt 7).
Proof.
  split; [apply answers_constant|]. split; [vm_compute; reflexivity|].
  split; [vm_compute; reflexivity|]. split; [vm_compute; reflexivity|].
  apply (ckan_request_truthy_success plain_repr
           (constant_backend (ok_response (JDict envelope_with_text_success)))
           (lit "package_search") None envelope_with_text_success
           (JStr (lit "false")) (JInt 7));
    [apply answers_constant | vm_compute; reflexivity
     | vm_compute; reflexivity | vm_compute; reflexivity].
Defined.

Lemma format_resource_info_total_witness :
  (forall d, JStr (lit "keine Ressource") <> JDict d)
  /\ format_resource_info plain_repr (JStr (lit "keine Ressource"))
     = Raise (AttributeError (lit "str") (lit "get")).
Proof.
  split; [discriminate|].
  destruct (format_resource_info_total plain_repr) as (_ & _ & H).
  rewrite (H (JStr (lit "keine Ressource"))); [reflexivity | discriminate].
Defined.

Lemma format_dataset_lines_shape_witness :
  wf_dataset sample_dataset = true
  /\ exists lines,
       format_dataset_lines plain_repr (JDict sample_dataset) = Ok lines
       /\ (7 <= List.length lines <= 11)%nat
       /\ hd [] lines = lit "### Schulferien".
Proof.
  split; [vm_compute; reflexivity|].
  destruct (format_dataset_lines_shape plain_repr sample_dataset)
    as (lines & Hl & Hn & Hh & _); [vm_compute; reflexivity|].
  exists lines. split; [exact Hl|]. split; [exact Hn|].
  rewrite Hh. vm_compute. reflexivity.
Defined.

Lemma format_dataset_summary_null_fields_witness :
  wf_dataset sample_dataset = true
  /\ dict_get sample_dataset (lit "author") = Some JNull
  /\ exists lines,
       format_dataset_lines plain_repr (JDict sample_dataset) = Ok lines
       /\ In (lit "- **Autor**: None") lines.
Proof.
  split; [vm_compute; reflexivity|]. split; [vm_compute; reflexivity|].
  destruct (format_dataset_summary_null_fields plain_repr sample_dataset)
    as (lines & Hl & _ & Ha & _); [vm_compute; reflexivity|].
  exists lines. split; [exact Hl|]. apply Ha. vm_compute. reflexivity.
Defined.

Lemma format_dataset_summary_bad_date_witness :
  if_present is_str_or_null (dict_get dataset_with_null_date (lit "notes"))
  = true
  /\ dict_get dataset_with_null_date (lit "metadata_modified") = Some JNull
  /\ format_dataset_summary plain_repr (JDict dataset_with_null_date)
     = Raise TypeError.
Proof.
  split; [vm_compute; reflexivity|]. split; [vm_compute; reflexivity|].
  apply (format_dataset_summary_bad_date plain_repr dataset_with_null_date
           JNull);
    [vm_compute; reflexivity | vm_compute; reflexivity | exact I].
Defined.

Lemma format_dataset_summary_date_witness :
  wf_dataset sample_dataset = true
  /\ dict_get sample_dataset (lit "metadata_modified")
     = Some (JStr (lit "2024-05-13T09:21:47.123456"))
  /\ exists lines,
       format_dataset_lines plain_repr (JDict sample_dataset) = Ok lines
       /\ In (lit "- **Letzte Änderung**: 2024-05-13") lines.
Proof.
  split; [vm_compute; reflexivity|]. split; [vm_compute; reflexivity|].
  destruct (format_dataset_summary_date plain_repr sample_dataset
              (lit "2024-05-13T09:21:47.123456"))
    as (lines & Hl & Hin);
    [vm_compute; reflexivity | vm_compute; reflexivity |].
  exists lines. split; [exact Hl|].
  replace (lit "- **Letzte Änderung**: 2024-05-13")
    with (lit "- **Letzte Änderung**: "
          ++ firstn 10 (lit "2024-05-13T09:21:47.123456"))
    by (vm_compute; reflexivity).
  exact Hin.
Defined.

Lemma handle_api_error_keeps_status_witness :
  500 <> 404 /\ 500 <> 403 /\ 500 <> 429
  /\ handle_api_error plain_repr no_text (HTTPStatusError 500)
       (lit "Datensatzsuche")
     = handle_api_error plain_repr no_text (HTTPStatusError (250 + 250))
         (lit "Datensatzsuche")
  /\ 500 = 250 + 250.
Proof.
  split; [lia|]. split; [lia|]. split; [lia|]. split; [reflexivity|].
  apply (handle_api_error_keeps_status plain_repr no_text
           (lit "Datensatzsuche") 500 (250 + 250));
    try lia. reflexivity.
Defined.

Lemma paris_extract_text_trimmed_witness :
  text titel_element = Some (lit "  Budget 2024 ")
  /\ lit "  Budget 2024 " <> []
  /\ strip (paris_extract_text (Some titel_element) (lit "?"))
     = paris_extract_text (Some titel_element) (lit "?").
Proof.
  split; [reflexivity|]. split; [vm_compute; discriminate|].
  apply (paris_extract_text_trimmed titel_element (lit "  Budget 2024 ")
           (lit "?"));
    [reflexivity | vm_compute; discriminate].
Defined.

Lemma zurich_search_datasets_request_witness :
  constant_backend (ok_response (JDict (envelope_of no_results)))
    (CKAN_API_URL ++ lit "/" ++ lit "package_search")
    (search_api_params school_search)
  = catalog_backend (ok_response (JDict (envelope_of no_results)))
      (CKAN_API_URL ++ lit "/" ++ lit "package_search")
      (search_api_params school_search)
  /\ dict_get (search_api_params school_search) (lit "fq")
     = Some (JStr (lit "groups:bildung"))
  /\ zurich_search_datasets plain_repr no_text
       (constant_backend (ok_response (JDict (envelope_of no_results))))
       no_float_gt school_search
     = zurich_search_datasets plain_repr no_text
         (catalog_backend (ok_response (JDict (envelope_of no_results))))
         no_float_gt school_search.
Proof.
  split; [vm_compute; reflexivity|]. split; [vm_compute; reflexivity|].
  apply (proj2 (zurich_search_datasets_request plain_repr no_text no_float_gt
                  school_search)).
  vm_compute. reflexivity.
Defined.

Lemma zurich_search_datasets_http_error_witness :
  constant_backend not_found_response
    (CKAN_API_URL ++ lit "/" ++ lit "package_search")
    (search_api_params school_search)
  = Ok not_found_response
  /\ ~ (200 <= status_code not_found_response <= 299)
  /\ zurich_search_datasets plain_repr no_text
       (constant_backend not_found_response) no_float_gt school_search
     = lit "Fehler bei Datensatzsuche: Ressource nicht gefunden. Bitte ID/Name prüfen.".
Proof.
  assert (H : ~ (200 <= status_code not_found_response <= 299))
    by (simpl; lia).
  split; [reflexivity|]. split; [exact H|].
  rewrite (zurich_search_datasets_http_error plain_repr no_text
             (constant_backend not_found_response) no_float_gt school_search
             not_found_response eq_refl H).
  reflexivity.
Defined.

Lemma zurich_search_datasets_envelope_error_witness :
  answers (constant_backend (ok_response (JDict failure_envelope)))
    (CKAN_API_URL ++ lit "/" ++ lit "package_search")
    (search_api_params school_search) (JDict failure_envelope)
  /\ zurich_search_datasets plain_repr no_text
       (constant_backend (ok_response (JDict failure_envelope)))
       no_float_gt school_search
     = lit "Fehler bei Datensatzsuche: RuntimeError: CKAN API error: Nicht gefunden".
Proof.
  split; [apply answers_constant|].
  rewrite (zurich_search_datasets_envelope_error plain_repr no_text
             (constant_backend (ok_response (JDict failure_envelope)))
             no_float_gt school_search failure_envelope
             [ (lit "message", JStr (lit "Nicht gefunden"));
               (lit "__type", JStr (lit "Not Found Error")) ]
             (lit "Nicht gefunden"));
    [vm_compute; reflexivity | apply answers_constant
     | vm_compute; reflexivity | vm_compute; reflexivity
     | vm_compute; reflexivity].
Defined.

Lemma zurich_search_datasets_nothing_found_witness :
  answers (constant_backend (ok_response (JDict (envelope_of no_results))))
    (CKAN_API_URL ++ lit "/" ++ lit "package_search")
    (search_api_params school_search) (JDict (envelope_of no_results))
  /\ truthy (JList []) = false
  /\ zurich_search_datasets plain_repr no_text
       (constant_backend (ok_response (JDict (envelope_of no_results))))
       no_float_gt school_search
     = lit "Keine Datensätze gefunden für 'Schule'.".
Proof.
  split; [apply answers_constant|]. split; [reflexivity|].
  rewrite (zurich_search_datasets_nothing_found plain_repr no_text
             (constant_backend (ok_response (JDict (envelope_of no_results))))
             no_float_gt school_search (envelope_of no_results)
             [ (lit "count", JInt 0); (lit "results", JList []) ]
             (JInt 0) (JList []));
    [vm_compute; reflexivity | apply answers_constant
     | vm_compute; reflexivity | vm_compute; reflexivity
     | vm_compute; reflexivity | vm_compute; reflexivity | reflexivity].
Defined.

Lemma zurich_search_datasets_page_witness :
  answers (constant_backend (ok_response (JDict (envelope_of two_datasets))))
    (CKAN_API_URL ++ lit "/" ++ lit "package_search")
    (search_api_params school_search) (JDict (envelope_of two_datasets))
  /\ forallb is_wf_dataset
       [ JDict sample_dataset;
         JDict [(lit "name", JStr (lit "ssd_schulkreise"))] ] = true
  /\ exists summaries,
       List.length summaries = 2%nat
       /\ zurich_search_datasets plain_repr no_text
            (constant_backend (ok_response (JDict (envelope_of two_datasets))))
            no_float_gt school_search
          = join [10%N]
              ([ lit "## Suchergebnis: 120 Datensätze für 'Schule'";
                 lit "Zeige 2 von 120 (Offset: 0)" ++ [10%N] ]
               ++ flat_map (fun s => [s; []]) summaries
               ++ [ lit "*→ Weitere Ergebnisse mit offset=2*" ]).
Proof.
  split; [apply answers_constant|]. split; [vm_compute; reflexivity|].
  destruct (zurich_search_datasets_page plain_repr no_text
              (constant_backend
                 (ok_response (JDict (envelope_of two_datasets))))
              no_float_gt school_search (envelope_of two_datasets)
              [ (lit "count", JInt 120);
                (lit "results",
                 JList [ JDict sample_dataset;
                         JDict [(lit "name", JStr (lit "ssd_schulkreise"))] ]) ]
              120
              [ JDict sample_dataset;
                JDict [(lit "name", JStr (lit "ssd_schulkreise"))] ])
    as (summaries & _ & Hlen & Hout);
    [apply answers_constant | vm_compute; reflexivity
     | vm_compute; reflexivity | vm_compute; reflexivity
     | vm_compute; reflexivity | discriminate | vm_compute; reflexivity |].
  exists summaries. split; [exact Hlen|]. rewrite Hout.
  vm_compute. reflexivity.
Defined.

Lemma zurich_sparql_guard_witness :
  startswith (ascii_upper (strip (lit "drop graph <urn:x>"))) (lit "SELECT")
  = false
  /\ startswith (ascii_upper (strip (lit "drop graph <urn:x>"))) (lit "PREFIX")
     = false
  /\ zurich_sparql plain_repr no_text
       (constant_backend_headers (ok_response empty_sparql_result))
       ascii_upper (lit "drop graph <urn:x>")
     = lit "Nur SELECT-Abfragen sind erlaubt.".
Proof.
  split; [vm_compute; reflexivity|]. split; [vm_compute; reflexivity|].
  apply (proj1 (zurich_sparql_guard plain_repr no_text ascii_upper
                  (lit "drop graph <urn:x>")));
    vm_compute; reflexivity.
Defined.

Lemma zurich_sparql_no_rows_witness :
  startswith (ascii_upper (strip (lit " select ?year ?pop where { } ")))
    (lit "SELECT") = true
  /\ sparql_query (constant_backend_headers (ok_response empty_sparql_result))
       (lit " select ?year ?pop where { } ")
     = Ok empty_sparql_result
  /\ zurich_sparql plain_repr no_text
       (constant_backend_headers (ok_response empty_sparql_result))
       ascii_upper (lit " select ?year ?pop where { } ")
     = lit "SPARQL-Abfrage lieferte keine Ergebnisse.".
Proof.
  split; [vm_compute; reflexivity|]. split; [vm_compute; reflexivity|].
  apply (zurich_sparql_no_rows plain_repr no_text
           (constant_backend_headers (ok_response empty_sparql_result))
           ascii_upper (lit " select ?year ?pop where { } ")
           [ (lit "head",
              JDict [(lit "vars", JList [JStr (lit "year"); JStr (lit "pop")])]);
             (lit "results", JDict [(lit "bindings", JList [])]) ]
           [(lit "vars", JList [JStr (lit "year"); JStr (lit "pop")])]
           [(lit "bindings", JList [])]);
    [left; vm_compute; reflexivity | vm_compute; reflexivity
     | vm_compute; reflexivity | vm_compute; reflexivity
     | vm_compute; reflexivity].
Defined.

Lemma sparql_cell_bounded_witness :
  dict_get [(lit "label", JDict long_cell)] (lit "label")
  = Some (JDict long_cell)
  /\ dict_get long_cell (lit "value") = Some (JStr (repeat 120%N 150))
  /\ json_eq_str (dict_get_or long_cell (lit "type") JNull) (lit "uri") = false
  /\ sparql_cell (JDict [(lit "label", JDict long_cell)]) (JStr (lit "label"))
     = Ok (JStr (repeat 120%N 97 ++ lit "..."))
  /\ (List.length (repeat 120%N 97 ++ lit "...") <= 100)%nat.
Proof.
  split; [vm_compute; reflexivity|]. split; [vm_compute; reflexivity|].
  split; [vm_compute; reflexivity|].
  destruct (sparql_cell_bounded (JDict [(lit "label", JDict long_cell)])
              (JStr (lit "label"))) as [Hb Hc].
  assert (E : sparql_cell (JDict [(lit "label", JDict long_cell)])
                (JStr (lit "label"))
              = Ok (JStr (repeat 120%N 97 ++ lit "..."))).
  { rewrite (Hc [(lit "label", JDict long_cell)] (lit "label") long_cell
               (repeat 120%N 150));
      [vm_compute; reflexivity | reflexivity | reflexivity
       | vm_compute; reflexivity | vm_compute; reflexivity
       | vm_compute; reflexivity]. }
  split; [exact E|]. exact (Hb _ E).
Defined.


(** * Properties of the tag list and of the geodata resource *)




(** X25.  The geodata resource looks the layer up first.  For an
    identifier that is not in the table it answers with the error
    document and asks the network nothing; for a layer of the table it
    asks for up to 500 features of the layer's type, without filter, and
    returns what the backend sent, serialised; a status outside 200..299
    is not caught here but raised. *)
Theorem get_geo_resource_lookup (json_dumps json_dumps_indent : json -> pystr)
    (layer_id : pystr) :
  (layer_get GEOPORTAL_LAYERS layer_id = None ->
   forall h : pystr -> dict -> result response,
     get_geo_resource h json_dumps json_dumps_indent layer_id
     = Ok (json_dumps
             (JDict [(lit "error", JStr (lit "Unknown layer: " ++ layer_id))])))
  /\ (forall service_name typename description,
        layer_get GEOPORTAL_LAYERS layer_id
        = Some (service_name, typename, description) ->
        dict_get (wfs_params typename 500 (lit "GeoJSON") None)
          (lit "maxFeatures") = Some (JStr (lit "500"))
        /\ dict_get (wfs_params typename 500 (lit "GeoJSON") None)
             (lit "CQL_FILTER") = None
        /\ (forall (h : pystr -> dict -> result response) data,
              answers h (WFS_BASE_URL ++ lit "/" ++ service_name)
                (wfs_params typename 500 (lit "GeoJSON") None) data ->
              get_geo_resource h json_dumps json_dumps_indent layer_id
              = Ok (json_dumps_indent data))
        /\ (forall (h : pystr -> dict -> result response) r,
              h (WFS_BASE_URL ++ lit "/" ++ service_name)
                (wfs_params typename 500 (lit "GeoJSON") None) = Ok r ->
              ~ (200 <= status_code r <= 299) ->
              get_geo_resource h json_dumps json_dumps_indent layer_id
              = Raise (HTTPStatusError (status_code r)))).
Proof.
  split.
  - intros H h. unfold get_geo_resource. now rewrite H.
  - intros service_name typename description H.
    split; [vm_compute; reflexivity|]. split; [vm_compute; reflexivity|].
    split.
    + intros h data (r & Hr & Hs & Hj). unfold get_geo_resource.
      rewrite H. unfold wfs_get_features. rewrite Hr. cbn [bind].
      rewrite (raise_for_status_ok r Hs). cbn [bind]. now rewrite Hj.
    + intros h r Hr Hs. unfold get_geo_resource.
      rewrite H. unfold wfs_get_features. rewrite Hr. cbn [bind].
      now rewrite (raise_for_status_error r Hs).
Qed.



Lemma get_geo_resource_lookup_witness :
  layer_get GEOPORTAL_LAYERS (lit "schulhaus") = None
  /\ get_geo_resource (failing_backend read_timeout) plain_dumps plain_dumps
       (lit "schulhaus")
     = Ok (lit "<json>")
  /\ layer_get GEOPORTAL_LAYERS (lit "schulanlagen")
     = Some (lit "Schulanlagen", lit "poi_kindergarten_view",
             lit "Schulstandorte (Kindergärten, Schulhäuser, Horte)")
  /\ get_geo_resource (constant_backend (ok_response feature_collection))
       plain_dumps plain_dumps (lit "schulanlagen")
     = Ok (lit "<json>").
Proof.
  destruct (get_geo_resource_lookup plain_dumps plain_dumps (lit "schulhaus"))
    as [Hunknown _].
  destruct (get_geo_resource_lookup plain_dumps plain_dumps
              (lit "schulanlagen")) as [_ Hknown].
  split; [vm_compute; reflexivity|]. split.
  - rewrite Hunknown; [reflexivity | vm_compute; reflexivity].
  - split; [vm_compute; reflexivity|].
    destruct (Hknown (lit "Schulanlagen") (lit "poi_kindergarten_view")
                (lit "Schulstandorte (Kindergärten, Schulhäuser, Horte)"))
      as (_ & _ & H & _); [vm_compute; reflexivity|].
    rewrite (H (constant_backend (ok_response feature_collection))
               feature_collection); [reflexivity | apply answers_constant].
Defined.
